(** * rdpy.mitm.server: the server half of the RDP man-in-the-middle

    A shallow embedding of [MITMServer] (src/rdpy/mitm/server.py).

    - Python integers are [Z]; [&] is [Z.land] and [~] is [Z.lnot].
    - [bytes] objects are lists of [Byte.byte]; the slice [[::-1]] is [rev].
    - [None] is [option]'s [None]; reading an attribute of [None] raises
      [AttributeError].
    - A method is a computation in a state-and-exception monad: an exception
      keeps the mutations made before it was raised.
    - Calls into the collaborators of the class (recorder, X.224, MCS, router,
      security settings, client half, reactor) are appended, in program order,
      to the [effects] field of the session.
    - Calls to the [logging] module neither read nor write the session and are
      left out. *)

From Stdlib Require Import ZArith List Bool Lia String.
From Stdlib Require Import Strings.Byte.
Import ListNotations.
Local Open Scope Z_scope.

Definition bytes := list Byte.byte.

(** ** Exceptions and the method monad *)

Inductive Exn :=
| AttributeError
| ParserError (msg : string).

Inductive Result (A : Type) :=
| Ok (a : A)
| Raise (e : Exn).

Arguments Ok {A} a.
Arguments Raise {A} e.

(** [M S A]: a computation over a store [S] that returns an [A] or raises. *)
Definition M (S A : Type) : Type := S -> Result A * S.

Definition ret {S A : Type} (a : A) : M S A := fun s => (Ok a, s).

Definition raise {S A : Type} (e : Exn) : M S A := fun s => (Raise e, s).

Definition bind {S A B : Type} (m : M S A) (k : A -> M S B) : M S B :=
  fun s =>
    match m s with
    | (Ok a, s') => k a s'
    | (Raise e, s') => (Raise e, s')
    end.

Definition get {S : Type} : M S S := fun s => (Ok s, s).

Definition modify {S : Type} (f : S -> S) : M S unit := fun s => (Ok tt, f s).

(** Lifts an already computed [Result] (a parser's) into the monad. *)
Definition liftResult {S A : Type} (r : Result A) : M S A := fun s => (r, s).

(** Reads through a possibly-[None] reference: [x.attr] with [x] None raises. *)
Definition deref {S A : Type} (o : option A) : M S A :=
  match o with
  | Some a => ret a
  | None => raise AttributeError
  end.

Declare Scope method_scope.
Delimit Scope method_scope with method.
Notation "x <- m ;; k" := (bind m (fun x => k))
  (at level 61, m at next level, right associativity) : method_scope.
Notation "m ;; k" := (bind m (fun _ => k))
  (at level 61, right associativity) : method_scope.

Definition exec {S A : Type} (m : M S A) (s : S) : S := snd (m s).
Definition outcome {S A : Type} (m : M S A) (s : S) : Result A := fst (m s).

(** ** Enumerations (rdpy.enum)

    Modelled from the spec: the enumerations of rdpy.enum.rdp and
    rdpy.enum.mcs are not part of the sources at hand; the spec names the
    members and fixes the wire protocol to [MS-RDPBCGR] and T.125, whose
    numeric values are used here. *)

Module NegotiationProtocols.
Definition NONE : Z := 0.
Definition SSL : Z := 1.
Definition HYBRID : Z := 2.
End NegotiationProtocols.

Module EncryptionMethod.
Definition ENCRYPTION_40BIT : Z := 1.
Definition ENCRYPTION_128BIT : Z := 2.
Definition ENCRYPTION_56BIT : Z := 8.
Definition ENCRYPTION_FIPS : Z := 16.
End EncryptionMethod.

Module EncryptionLevel.
Definition ENCRYPTION_LEVEL_NONE : Z := 0.
Definition ENCRYPTION_LEVEL_LOW : Z := 1.
Definition ENCRYPTION_LEVEL_CLIENT_COMPATIBLE : Z := 2.
Definition ENCRYPTION_LEVEL_HIGH : Z := 3.
Definition ENCRYPTION_LEVEL_FIPS : Z := 4.
End EncryptionLevel.

Module MCSResult.
Definition RT_SUCCESSFUL : Z := 0.
Definition RT_USER_REJECTED : Z := 15.
End MCSResult.

Inductive RDPPlayerMessageType :=
| CLIENT_INFO
| CONNECTION_CLOSE.

Inductive ParserMode :=
| CLIENT
| SERVER.

(** ** Protocol data units

    The PDU classes are declared outside server.py; each record lists the
    constructor arguments and attributes that server.py uses, under the
    names it uses. *)

Module X224ConnectionRequestPDU.
Record t := make { payload : bytes }.
End X224ConnectionRequestPDU.

Module RDPNegotiationRequestPDU.
Record t := make {
  cookie : option bytes;
  flags : option Z;
  requestedProtocols : option Z;
  correlationFlags : option Z;
  correlationID : option bytes;
  reserved : option bytes
}.
End RDPNegotiationRequestPDU.

Module RDPNegotiationResponsePDU.
Record t := make { flags : Z; selectedProtocols : Z }.
End RDPNegotiationResponsePDU.

Module MCSConnectInitialPDU.
Record t := make { payload : bytes }.
End MCSConnectInitialPDU.

Module GCCConferenceCreateRequestPDU.
Record t := make { conferenceName : bytes; payload : bytes }.
End GCCConferenceCreateRequestPDU.

Module ClientSecurityData.
Record t := make { encryptionMethods : Z; extEncryptionMethods : Z }.
End ClientSecurityData.

Module RDPClientDataPDU.
(** Only [securityData] is read by server.py; the other blocks are carried
    along as the bytes they were parsed from. *)
Record t := make {
  coreData : bytes;
  securityData : ClientSecurityData.t;
  networkData : bytes;
  clusterData : bytes
}.
End RDPClientDataPDU.

(** The key object made by [RSA.generate]; a public key has no [d]. *)
Module RSAKey.
Record t := make { n : Z; e : Z; d : option Z }.
Definition publickey (k : t) : t := make (n k) (e k) None.
End RSAKey.

Module ProprietaryCertificate.
Record t := make {
  signatureAlgorithmID : Z;
  keyAlgorithmID : Z;
  publicKeyType : Z;
  publicKey : RSAKey.t;
  signatureType : Z;
  signature : bytes;
  padding : bytes
}.
End ProprietaryCertificate.

Module ServerCoreData.
Record t := make {
  version : Z;
  clientRequestedProtocols : option Z;
  earlyCapabilityFlags : option Z
}.
End ServerCoreData.

Module ServerSecurityData.
Record t := make {
  encryptionMethod : Z;
  encryptionLevel : Z;
  serverRandom : option bytes;
  serverCertificate : option ProprietaryCertificate.t
}.
End ServerSecurityData.

Module ServerNetworkData.
Record t := make { mcsChannelID : Z; channels : list Z }.
End ServerNetworkData.

Module RDPServerDataPDU.
Record t := make {
  core : ServerCoreData.t;
  security : ServerSecurityData.t;
  network : ServerNetworkData.t
}.
End RDPServerDataPDU.

Module GCCConferenceCreateResponsePDU.
Record t := make { nodeID : Z; tag : Z; result : Z; payload : bytes }.
End GCCConferenceCreateResponsePDU.

Module MCSConnectResponsePDU.
Record t := make {
  result : Z;
  calledConnectID : Z;
  domainParams : list Z;
  payload : bytes
}.
End MCSConnectResponsePDU.

Module MCSChannelJoinRequestPDU.
Record t := make { initiator : Z; channelID : Z }.
End MCSChannelJoinRequestPDU.

Module RDPSecurityExchangePDU.
Record t := make { clientRandom : bytes }.
End RDPSecurityExchangePDU.

Module RDPClientInfoPDU.
Record t := make { username : string; password : string; domain : string }.
End RDPClientInfoPDU.

Module RDPFastPathPDU.
Record t := make { header : Z; events : list bytes }.
End RDPFastPathPDU.

Module MCSUser.
Record t := make { userID : Z }.
End MCSUser.

(** What [self.mcs.send] is given. *)
Inductive MCSPDU :=
| MCSPDU_ConnectResponse (pdu : MCSConnectResponsePDU.t)
| MCSPDU_DisconnectProviderUltimatum (reason : Z).

(** What [self.recorder.record] is given. *)
Inductive RecordedPDU :=
| Recorded_FastPath (pdu : RDPFastPathPDU.t)
| Recorded_ClientInfo (pdu : RDPClientInfoPDU.t).

(** ** Collaborator objects held by the session *)

(** The connector returned by [reactor.connectTCP(host, port, factory)]. *)
Module Connector.
Record t := make { host : string; port : Z }.
End Connector.

(** The client half ([MITMClient]); server.py reads one attribute of it. *)
Module MITMClient.
Record t := make {
  conferenceCreateResponse : option GCCConferenceCreateResponsePDU.t
}.
End MITMClient.

Module ServerTLSContext.
Record t := make { privateKeyFileName : string; certificateFileName : string }.
End ServerTLSContext.

(** Modelled from the spec: [TCPLayer] (rdpy.layer.tcp) is not part of the
    sources at hand. Section 4.1 gives it [disconnect()], which is idempotent,
    and the observer events [onConnection] and [onDisconnection]; section 5
    says a disconnect sets a closed flag on the layer. The layer is therefore
    open, closing (closed flag set, the end of the connection not yet reported
    to the observer) or closed (reported). *)
Module TCPLayer.
Inductive t :=
| OPEN
| CLOSING
| CLOSED.
End TCPLayer.

Module RC4CrypterProxy.
Record t := make { }.
End RC4CrypterProxy.

(** [TLSSecurityLayer()] or [createNonTLSSecurityLayer(method, crypter)];
    [securityHeaderExpected] is [None] until server.py assigns it. *)
Module SecurityLayer.
Inductive variant :=
| TLSSecurityLayer
| NonTLSSecurityLayer (encryptionMethod : Z) (crypter : RC4CrypterProxy.t).
Record t := make {
  kind : variant;
  securityHeaderExpected : option bool
}.
End SecurityLayer.

(** [createFastPathParser(useTLS, encryptionMethod, crypter, mode)]. *)
Module FastPathParser.
Record t := make {
  useTLS : bool;
  encryptionMethod : Z;
  crypter : RC4CrypterProxy.t;
  mode : ParserMode
}.
End FastPathParser.

Module RDPLicensingLayer.
Record t := make { }.
End RDPLicensingLayer.

(** [MCSServerChannel(mcs, userID, channelID)]. *)
Module MCSServerChannel.
Record t := make { userID : Z; channelID : Z }.
End MCSServerChannel.

(** The links made by [buildChannel] between layers and observers. *)
Inductive Wiring :=
| Channel_setNext (layer : SecurityLayer.t)
| SecurityLayer_setLicensingLayer (layer : RDPLicensingLayer.t)
| SecurityLayer_setNext_io
| TPKT_setFastPathParser (parser : FastPathParser.t)
| IO_setObserver_slowPath (mode : ParserMode)
| TPKT_setObserver_fastPath (mode : ParserMode)
| SecurityLayer_createObserver
| SlowPathObserver_setPeer (channelID : Z)
| FastPathObserver_setPeer
| SlowPathObserver_setDataHandler_INPUT.

(** ** Effects: the calls the session makes on its collaborators *)

Inductive Effect :=
| Reactor_connectTCP (host : string) (port : Z)
| Connector_disconnect (connector : Connector.t)
| Transport_loseConnection
| TCP_startTLS (context : ServerTLSContext.t)
| Recorder_record (pdu : RecordedPDU) (messageType : RDPPlayerMessageType)
| X224_sendConnectionConfirm (payload : bytes) (source : Z)
| MCS_send (pdu : MCSPDU)
| Router_sendAttachUserConfirm (success : bool) (param : Z)
| Router_sendChannelJoinConfirm
    (result : Z) (userID : Z) (channelID : Z) (notify : option bool)
| SecuritySettings_serverSecurityReceived (security : ServerSecurityData.t)
| SecuritySettings_setClientRandom (clientRandom : bytes)
| SecuritySettings_setObserver (crypter : RC4CrypterProxy.t)
| Licensing_sendPDU (pdu : bytes)
| Client_disconnect
| Client_onConnectInitial
    (gcc : GCCConferenceCreateRequestPDU.t) (clientData : RDPClientDataPDU.t)
| Client_onAttachUserRequest
| Client_onChannelJoinRequest (pdu : MCSChannelJoinRequestPDU.t)
| Client_onClientInfoReceived (pdu : RDPClientInfoPDU.t)
| Wire (link : Wiring).

(** ** The session object *)

Record MITMServer := mkMITMServer {
  targetHost : string;
  targetPort : Z;
  clientConnector : option Connector.t;
  client : option MITMClient.t;
  originalNegotiationPDU : option RDPNegotiationRequestPDU.t;
  targetNegotiationPDU : option RDPNegotiationRequestPDU.t;
  serverData : option RDPServerDataPDU.t;
  securityLayer : option SecurityLayer.t;
  fastPathParser : option FastPathParser.t;
  licensingLayer : option RDPLicensingLayer.t;
  rc4RSAKey : RSAKey.t;
  useTLS : bool;
  tcp : TCPLayer.t;
  certificateFileName : string;
  privateKeyFileName : string;
  effects : list Effect
}.

Definition set_clientConnector (v : option Connector.t) (s : MITMServer) :=
  mkMITMServer (targetHost s) (targetPort s) v (client s)
    (originalNegotiationPDU s) (targetNegotiationPDU s) (serverData s)
    (securityLayer s) (fastPathParser s) (licensingLayer s) (rc4RSAKey s)
    (useTLS s) (tcp s) (certificateFileName s) (privateKeyFileName s)
    (effects s).

Definition set_client (v : option MITMClient.t) (s : MITMServer) :=
  mkMITMServer (targetHost s) (targetPort s) (clientConnector s) v
    (originalNegotiationPDU s) (targetNegotiationPDU s) (serverData s)
    (securityLayer s) (fastPathParser s) (licensingLayer s) (rc4RSAKey s)
    (useTLS s) (tcp s) (certificateFileName s) (privateKeyFileName s)
    (effects s).

Definition set_originalNegotiationPDU
  (v : option RDPNegotiationRequestPDU.t) (s : MITMServer) :=
  mkMITMServer (targetHost s) (targetPort s) (clientConnector s) (client s)
    v (targetNegotiationPDU s) (serverData s)
    (securityLayer s) (fastPathParser s) (licensingLayer s) (rc4RSAKey s)
    (useTLS s) (tcp s) (certificateFileName s) (privateKeyFileName s)
    (effects s).

Definition set_targetNegotiationPDU
  (v : option RDPNegotiationRequestPDU.t) (s : MITMServer) :=
  mkMITMServer (targetHost s) (targetPort s) (clientConnector s) (client s)
    (originalNegotiationPDU s) v (serverData s)
    (securityLayer s) (fastPathParser s) (licensingLayer s) (rc4RSAKey s)
    (useTLS s) (tcp s) (certificateFileName s) (privateKeyFileName s)
    (effects s).

Definition set_serverData (v : option RDPServerDataPDU.t) (s : MITMServer) :=
  mkMITMServer (targetHost s) (targetPort s) (clientConnector s) (client s)
    (originalNegotiationPDU s) (targetNegotiationPDU s) v
    (securityLayer s) (fastPathParser s) (licensingLayer s) (rc4RSAKey s)
    (useTLS s) (tcp s) (certificateFileName s) (privateKeyFileName s)
    (effects s).

Definition set_securityLayer (v : option SecurityLayer.t) (s : MITMServer) :=
  mkMITMServer (targetHost s) (targetPort s) (clientConnector s) (client s)
    (originalNegotiationPDU s) (targetNegotiationPDU s) (serverData s)
    v (fastPathParser s) (licensingLayer s) (rc4RSAKey s)
    (useTLS s) (tcp s) (certificateFileName s) (privateKeyFileName s)
    (effects s).

Definition set_fastPathParser (v : option FastPathParser.t) (s : MITMServer) :=
  mkMITMServer (targetHost s) (targetPort s) (clientConnector s) (client s)
    (originalNegotiationPDU s) (targetNegotiationPDU s) (serverData s)
    (securityLayer s) v (licensingLayer s) (rc4RSAKey s)
    (useTLS s) (tcp s) (certificateFileName s) (privateKeyFileName s)
    (effects s).

Definition set_licensingLayer
  (v : option RDPLicensingLayer.t) (s : MITMServer) :=
  mkMITMServer (targetHost s) (targetPort s) (clientConnector s) (client s)
    (originalNegotiationPDU s) (targetNegotiationPDU s) (serverData s)
    (securityLayer s) (fastPathParser s) v (rc4RSAKey s)
    (useTLS s) (tcp s) (certificateFileName s) (privateKeyFileName s)
    (effects s).

Definition set_useTLS (v : bool) (s : MITMServer) :=
  mkMITMServer (targetHost s) (targetPort s) (clientConnector s) (client s)
    (originalNegotiationPDU s) (targetNegotiationPDU s) (serverData s)
    (securityLayer s) (fastPathParser s) (licensingLayer s) (rc4RSAKey s)
    v (tcp s) (certificateFileName s) (privateKeyFileName s)
    (effects s).

Definition set_tcp (v : TCPLayer.t) (s : MITMServer) :=
  mkMITMServer (targetHost s) (targetPort s) (clientConnector s) (client s)
    (originalNegotiationPDU s) (targetNegotiationPDU s) (serverData s)
    (securityLayer s) (fastPathParser s) (licensingLayer s) (rc4RSAKey s)
    (useTLS s) v (certificateFileName s) (privateKeyFileName s)
    (effects s).

Definition set_effects (v : list Effect) (s : MITMServer) :=
  mkMITMServer (targetHost s) (targetPort s) (clientConnector s) (client s)
    (originalNegotiationPDU s) (targetNegotiationPDU s) (serverData s)
    (securityLayer s) (fastPathParser s) (licensingLayer s) (rc4RSAKey s)
    (useTLS s) (tcp s) (certificateFileName s) (privateKeyFileName s)
    v.

(** Appends one call to the trace of the session. *)
Definition record_effect (e : Effect) (s : MITMServer) : MITMServer :=
  set_effects (effects s ++ [e]) s.

Definition emit (e : Effect) : M MITMServer unit := modify (record_effect e).

(** ** Functions of other modules that server.py calls

    The parsers (rdpy.parser), the [tlsSupported] attribute that the class
    [RDPNegotiationRequestPDU] computes from its constructor arguments, and
    the [decrypt] method of the RSA key are defined outside server.py. The
    methods below are written against this interface; a parser that rejects
    its input raises. *)

Class Collaborators := {
  RDPNegotiationRequestParser_parse :
    bytes -> Result RDPNegotiationRequestPDU.t;
  tlsSupported : RDPNegotiationRequestPDU.t -> bool;
  RDPNegotiationResponseParser_write : RDPNegotiationResponsePDU.t -> bytes;
  GCCParser_parse : bytes -> Result GCCConferenceCreateRequestPDU.t;
  GCCParser_write : GCCConferenceCreateResponsePDU.t -> bytes;
  RDPClientConnectionParser_parse : bytes -> Result RDPClientDataPDU.t;
  RDPServerConnectionParser_write : RDPServerDataPDU.t -> bytes;
  RSA_decrypt : RSAKey.t -> bytes -> bytes
}.

(** ** Field assignments on the PDUs that server.py mutates *)

Definition set_encryptionMethods (v : Z) (d : ClientSecurityData.t) :=
  ClientSecurityData.make v (ClientSecurityData.extEncryptionMethods d).

Definition set_extEncryptionMethods (v : Z) (d : ClientSecurityData.t) :=
  ClientSecurityData.make (ClientSecurityData.encryptionMethods d) v.

Definition set_securityData
  (v : ClientSecurityData.t) (p : RDPClientDataPDU.t) :=
  RDPClientDataPDU.make (RDPClientDataPDU.coreData p) v
    (RDPClientDataPDU.networkData p) (RDPClientDataPDU.clusterData p).

Definition set_clientRequestedProtocols
  (v : option Z) (c : ServerCoreData.t) :=
  ServerCoreData.make (ServerCoreData.version c) v
    (ServerCoreData.earlyCapabilityFlags c).

Definition set_channels (v : list Z) (n : ServerNetworkData.t) :=
  ServerNetworkData.make (ServerNetworkData.mcsChannelID n) v.

Definition set_core (v : ServerCoreData.t) (p : RDPServerDataPDU.t) :=
  RDPServerDataPDU.make v (RDPServerDataPDU.security p)
    (RDPServerDataPDU.network p).

Definition set_network (v : ServerNetworkData.t) (p : RDPServerDataPDU.t) :=
  RDPServerDataPDU.make (RDPServerDataPDU.core p)
    (RDPServerDataPDU.security p) v.

Definition set_securityHeaderExpected (v : bool) (l : SecurityLayer.t) :=
  SecurityLayer.make (SecurityLayer.kind l) (Some v).

(** A method that also mutates an object passed by the caller runs over the
    pair of the session and that object. *)
Definition onSelf {X A : Type} (m : M MITMServer A) : M (MITMServer * X) A :=
  fun store =>
    let (r, self') := m (fst store) in (r, (self', snd store)).

Definition onArgument {X A : Type} (m : M X A) : M (MITMServer * X) A :=
  fun store =>
    let (r, x') := m (snd store) in (r, (fst store, x')).

(** ** __init__ *)

Definition MITMServer_init
  (targetHost : string) (targetPort : Z)
  (certificateFileName privateKeyFileName : string)
  (generatedKey : RSAKey.t) : MITMServer :=
  {| targetHost := targetHost;
     targetPort := targetPort;
     clientConnector := None;
     client := None;
     originalNegotiationPDU := None;
     targetNegotiationPDU := None;
     serverData := None;
     securityLayer := None;
     fastPathParser := None;
     licensingLayer := None;
     rc4RSAKey := generatedKey;
     useTLS := false;
     tcp := TCPLayer.OPEN;
     certificateFileName := certificateFileName;
     privateKeyFileName := privateKeyFileName;
     effects := [] |}.

Section Methods.

Context {collaborators : Collaborators}.

Local Open Scope method_scope.

(** Modelled from the spec: [TCPLayer.disconnect] (rdpy.layer.tcp, not part
    of the sources at hand). Sections 4.1 and 5: it closes the client-facing
    transport and sets the closed flag; on a layer whose flag is already set
    it does nothing. *)
Definition TCPLayer_disconnect : M MITMServer unit :=
  self <- get ;;
  match tcp self with
  | TCPLayer.OPEN =>
      modify (set_tcp TCPLayer.CLOSING) ;;
      emit Transport_loseConnection
  | TCPLayer.CLOSING | TCPLayer.CLOSED => ret tt
  end.

Definition TCPLayer_startTLS (context : ServerTLSContext.t)
  : M MITMServer unit :=
  emit (TCP_startTLS context).

Definition getNegotiationPDU
  : M MITMServer (option RDPNegotiationRequestPDU.t) :=
  self <- get ;;
  ret (targetNegotiationPDU self).

(** [self.client = MITMClient(...)]: a fresh client half, which has not yet
    received a conference-create response. *)
Definition buildProtocol : M MITMServer unit :=
  modify (set_client (Some (MITMClient.make None))).

Definition connectClient : M MITMServer unit :=
  self <- get ;;
  emit (Reactor_connectTCP (targetHost self) (targetPort self)) ;;
  modify (set_clientConnector
            (Some (Connector.make (targetHost self) (targetPort self)))).

Definition onConnection (clientInfo : string * Z) : M MITMServer unit :=
  ret tt.

Definition disconnectConnector : M MITMServer unit :=
  self <- get ;;
  match clientConnector self with
  | Some connector =>
      emit (Connector_disconnect connector) ;;
      modify (set_clientConnector None)
  | None => ret tt
  end.

Definition onDisconnection (reason : string) : M MITMServer unit :=
  emit (Recorder_record
          (Recorded_FastPath (RDPFastPathPDU.make 0 []))
          CONNECTION_CLOSE) ;;
  self <- get ;;
  match client self with
  | Some _ => emit Client_disconnect
  | None => ret tt
  end ;;
  disconnectConnector.

(** Modelled from the spec: the TCP layer reports the end of the connection
    (closed by the peer, or closing after [disconnect]) to its observer
    once, through [onDisconnection]. *)
Definition TCPLayer_connectionLost (reason : string) : M MITMServer unit :=
  self <- get ;;
  match tcp self with
  | TCPLayer.OPEN | TCPLayer.CLOSING =>
      modify (set_tcp TCPLayer.CLOSED) ;;
      onDisconnection reason
  | TCPLayer.CLOSED => ret tt
  end.

Definition disconnect : M MITMServer unit :=
  TCPLayer_disconnect ;;
  disconnectConnector.

Definition onDisconnectRequest : M MITMServer unit :=
  disconnect.

Definition onDisconnectProviderUltimatum : M MITMServer unit :=
  disconnect.

Definition onUnknownTPKTHeader (header : Z) : M MITMServer unit :=
  disconnect.

Definition onConnectionRequest (pdu : X224ConnectionRequestPDU.t)
  : M MITMServer unit :=
  original <- liftResult (RDPNegotiationRequestParser_parse
                            (X224ConnectionRequestPDU.payload pdu)) ;;
  modify (set_originalNegotiationPDU (Some original)) ;;
  modify (set_targetNegotiationPDU
            (Some (RDPNegotiationRequestPDU.make
                     (RDPNegotiationRequestPDU.cookie original)
                     (RDPNegotiationRequestPDU.flags original)
                     match RDPNegotiationRequestPDU.requestedProtocols original
                     with
                     | Some requested =>
                         Some (Z.land requested NegotiationProtocols.SSL)
                     | None => None
                     end
                     (RDPNegotiationRequestPDU.correlationFlags original)
                     (RDPNegotiationRequestPDU.correlationID original)
                     (RDPNegotiationRequestPDU.reserved original)))) ;;
  connectClient.

Definition onConnectionConfirm : M MITMServer unit :=
  self <- get ;;
  original <- deref (originalNegotiationPDU self) ;;
  let protocols :=
    if tlsSupported original
    then NegotiationProtocols.SSL else NegotiationProtocols.NONE in
  let payload :=
    RDPNegotiationResponseParser_write
      (RDPNegotiationResponsePDU.make 0 protocols) in
  emit (X224_sendConnectionConfirm payload 0x1234) ;;
  if tlsSupported original
  then
    TCPLayer_startTLS
      (ServerTLSContext.make (privateKeyFileName self)
                             (certificateFileName self)) ;;
    modify (set_useTLS true)
  else ret tt.

Definition onConnectInitial (pdu : MCSConnectInitialPDU.t)
  : M MITMServer bool :=
  gccConferenceCreateRequestPDU <-
    liftResult (GCCParser_parse (MCSConnectInitialPDU.payload pdu)) ;;
  rdpClientDataPdu <-
    liftResult (RDPClientConnectionParser_parse
                  (GCCConferenceCreateRequestPDU.payload
                     gccConferenceCreateRequestPDU)) ;;
  let rdpClientDataPdu :=
    set_securityData
      (set_encryptionMethods
         (Z.land (ClientSecurityData.encryptionMethods
                    (RDPClientDataPDU.securityData rdpClientDataPdu))
                 (Z.lnot EncryptionMethod.ENCRYPTION_FIPS))
         (RDPClientDataPDU.securityData rdpClientDataPdu))
      rdpClientDataPdu in
  let rdpClientDataPdu :=
    set_securityData
      (set_extEncryptionMethods
         (Z.land (ClientSecurityData.extEncryptionMethods
                    (RDPClientDataPDU.securityData rdpClientDataPdu))
                 (Z.lnot EncryptionMethod.ENCRYPTION_FIPS))
         (RDPClientDataPDU.securityData rdpClientDataPdu))
      rdpClientDataPdu in
  self <- get ;;
  _ <- deref (client self) ;;
  emit (Client_onConnectInitial
          gccConferenceCreateRequestPDU rdpClientDataPdu) ;;
  ret true.

(** The argument [serverData] is the caller's object ([data] below): the
    assignments to its [core] and [network] are made on it, next to the
    session. *)
Definition onConnectResponse (pdu : MCSConnectResponsePDU.t)
  : M (MITMServer * RDPServerDataPDU.t) unit :=
  if negb (MCSConnectResponsePDU.result pdu =? 0)
  then onSelf (emit (MCS_send (MCSPDU_ConnectResponse pdu)))
  else
    store <- get ;;
    let self := fst store in
    let data := snd store in
    let cert :=
      match ServerSecurityData.serverCertificate
              (RDPServerDataPDU.security data) with
      | Some cert =>
          Some (ProprietaryCertificate.make
                  (ProprietaryCertificate.signatureAlgorithmID cert)
                  (ProprietaryCertificate.keyAlgorithmID cert)
                  (ProprietaryCertificate.publicKeyType cert)
                  (rc4RSAKey self)
                  (ProprietaryCertificate.signatureType cert)
                  (ProprietaryCertificate.signature cert)
                  (ProprietaryCertificate.padding cert))
      | None => None
      end in
    let security :=
      ServerSecurityData.make
        (if negb (ServerSecurityData.encryptionMethod
                    (RDPServerDataPDU.security data)
                  =? EncryptionMethod.ENCRYPTION_FIPS)
         then ServerSecurityData.encryptionMethod
                (RDPServerDataPDU.security data)
         else EncryptionMethod.ENCRYPTION_128BIT)
        (if negb (ServerSecurityData.encryptionLevel
                    (RDPServerDataPDU.security data)
                  =? EncryptionLevel.ENCRYPTION_LEVEL_FIPS)
         then ServerSecurityData.encryptionLevel
                (RDPServerDataPDU.security data)
         else EncryptionLevel.ENCRYPTION_LEVEL_HIGH)
        (ServerSecurityData.serverRandom
           (RDPServerDataPDU.security data))
        cert in
    original <- deref (originalNegotiationPDU self) ;;
    onArgument
      (modify (fun data =>
         set_core (set_clientRequestedProtocols
                     (RDPNegotiationRequestPDU.requestedProtocols original)
                     (RDPServerDataPDU.core data))
                  data)) ;;
    onArgument
      (modify (fun data =>
         set_network (set_channels [] (RDPServerDataPDU.network data))
                     data)) ;;
    onSelf (emit (SecuritySettings_serverSecurityReceived security)) ;;
    store <- get ;;
    let data := snd store in
    onSelf (modify (set_serverData
                      (Some (RDPServerDataPDU.make
                               (RDPServerDataPDU.core data)
                               security
                               (RDPServerDataPDU.network data))))) ;;
    store <- get ;;
    let self := fst store in
    mitmClient <- deref (client self) ;;
    gcc <- deref (MITMClient.conferenceCreateResponse mitmClient) ;;
    rewritten <- deref (serverData self) ;;
    let gcc :=
      GCCConferenceCreateResponsePDU.make
        (GCCConferenceCreateResponsePDU.nodeID gcc)
        (GCCConferenceCreateResponsePDU.tag gcc)
        (GCCConferenceCreateResponsePDU.result gcc)
        (RDPServerConnectionParser_write rewritten) in
    let pdu :=
      MCSConnectResponsePDU.make
        (MCSConnectResponsePDU.result pdu)
        (MCSConnectResponsePDU.calledConnectID pdu)
        (MCSConnectResponsePDU.domainParams pdu)
        (GCCParser_write gcc) in
    onSelf (emit (MCS_send (MCSPDU_ConnectResponse pdu))).

Definition onAttachUserRequest : M MITMServer unit :=
  self <- get ;;
  _ <- deref (client self) ;;
  emit Client_onAttachUserRequest.

Definition onAttachConfirmed (user : MCSUser.t) : M MITMServer unit :=
  emit (Router_sendAttachUserConfirm true (MCSUser.userID user)).

Definition onAttachRefused (user : MCSUser.t) (result : Z)
  : M MITMServer unit :=
  emit (Router_sendAttachUserConfirm false result).

Definition onChannelJoinRequest (pdu : MCSChannelJoinRequestPDU.t)
  : M MITMServer unit :=
  self <- get ;;
  data <- deref (serverData self) ;;
  if MCSChannelJoinRequestPDU.channelID pdu
     =? ServerNetworkData.mcsChannelID (RDPServerDataPDU.network data)
  then
    _ <- deref (client self) ;;
    emit (Client_onChannelJoinRequest pdu)
  else
    emit (Router_sendChannelJoinConfirm
            (if MCSChannelJoinRequestPDU.channelID pdu =? 1004
             then MCSResult.RT_SUCCESSFUL else MCSResult.RT_USER_REJECTED)
            (MCSChannelJoinRequestPDU.initiator pdu)
            (MCSChannelJoinRequestPDU.channelID pdu)
            (Some false)).

Definition onChannelJoinAccepted (userID channelID : Z) : M MITMServer unit :=
  emit (Router_sendChannelJoinConfirm 0 userID channelID None).

Definition onChannelJoinRefused (user : MCSUser.t) (result channelID : Z)
  : M MITMServer unit :=
  emit (Router_sendChannelJoinConfirm
          result (MCSUser.userID user) channelID None).

Definition buildChannel (userID channelID : Z)
  : M MITMServer (option MCSServerChannel.t) :=
  self <- get ;;
  data <- deref (serverData self) ;;
  if negb (channelID
           =? ServerNetworkData.mcsChannelID (RDPServerDataPDU.network data))
  then ret None
  else
    let encryptionMethod :=
      ServerSecurityData.encryptionMethod (RDPServerDataPDU.security data) in
    let crypterProxy := RC4CrypterProxy.make in
    let layer :=
      if useTLS self
      then SecurityLayer.make SecurityLayer.TLSSecurityLayer None
      else SecurityLayer.make
             (SecurityLayer.NonTLSSecurityLayer encryptionMethod crypterProxy)
             None in
    modify (set_securityLayer (Some layer)) ;;
    emit (SecuritySettings_setObserver crypterProxy) ;;
    let parser :=
      FastPathParser.make (useTLS self) encryptionMethod crypterProxy SERVER in
    modify (set_fastPathParser (Some parser)) ;;
    modify (set_licensingLayer (Some RDPLicensingLayer.make)) ;;
    let channel := MCSServerChannel.make userID channelID in
    emit (Wire (Channel_setNext layer)) ;;
    emit (Wire (SecurityLayer_setLicensingLayer RDPLicensingLayer.make)) ;;
    emit (Wire SecurityLayer_setNext_io) ;;
    emit (Wire (TPKT_setFastPathParser parser)) ;;
    emit (Wire (IO_setObserver_slowPath SERVER)) ;;
    emit (Wire (TPKT_setObserver_fastPath SERVER)) ;;
    emit (Wire SecurityLayer_createObserver) ;;
    _ <- deref (client self) ;;
    emit (Wire (SlowPathObserver_setPeer channelID)) ;;
    emit (Wire FastPathObserver_setPeer) ;;
    emit (Wire SlowPathObserver_setDataHandler_INPUT) ;;
    (if useTLS self
     then modify (set_securityLayer
                    (Some (set_securityHeaderExpected true layer)))
     else ret tt) ;;
    ret (Some channel).

Definition onSecurityExchangeReceived (pdu : RDPSecurityExchangePDU.t)
  : M MITMServer unit :=
  self <- get ;;
  let clientRandom :=
    rev (RSA_decrypt (rc4RSAKey self)
                     (rev (RDPSecurityExchangePDU.clientRandom pdu))) in
  emit (SecuritySettings_setClientRandom clientRandom).

Definition onClientInfoReceived (pdu : RDPClientInfoPDU.t)
  : M MITMServer unit :=
  emit (Recorder_record (Recorded_ClientInfo pdu) CLIENT_INFO) ;;
  self <- get ;;
  _ <- deref (client self) ;;
  emit (Client_onClientInfoReceived pdu).

Definition onLicensingPDU (pdu : bytes) : M MITMServer unit :=
  self <- get ;;
  layer <- deref (securityLayer self) ;;
  modify (set_securityLayer
            (Some (set_securityHeaderExpected false layer))) ;;
  _ <- deref (licensingLayer self) ;;
  emit (Licensing_sendPDU pdu).

Definition sendDisconnectProviderUltimatum (pdu : MCSPDU)
  : M MITMServer unit :=
  emit (MCS_send pdu).

Definition onInputPDUReceived (events : list bytes) : M MITMServer unit :=
  ret tt.

(** ** The session as a reactive system

    The calls that the layers, the router, the client half and the reactor
    make on the session. [ClientHalf_response] is the client half storing
    the conference-create response of the real server in its own attribute,
    which the session reads through [self.client]. *)

Inductive Call :=
| Call_buildProtocol
| Call_onConnection (clientInfo : string * Z)
| Call_connectionLost (reason : string)
| Call_onDisconnectRequest
| Call_onDisconnectProviderUltimatum
| Call_onUnknownTPKTHeader (header : Z)
| Call_onConnectionRequest (pdu : X224ConnectionRequestPDU.t)
| Call_onConnectionConfirm
| Call_onConnectInitial (pdu : MCSConnectInitialPDU.t)
| Call_onConnectResponse
    (pdu : MCSConnectResponsePDU.t) (serverData : RDPServerDataPDU.t)
| Call_onAttachUserRequest
| Call_onAttachConfirmed (user : MCSUser.t)
| Call_onAttachRefused (user : MCSUser.t) (result : Z)
| Call_onChannelJoinRequest (pdu : MCSChannelJoinRequestPDU.t)
| Call_onChannelJoinAccepted (userID channelID : Z)
| Call_onChannelJoinRefused (user : MCSUser.t) (result channelID : Z)
| Call_buildChannel (userID channelID : Z)
| Call_onSecurityExchangeReceived (pdu : RDPSecurityExchangePDU.t)
| Call_onClientInfoReceived (pdu : RDPClientInfoPDU.t)
| Call_onLicensingPDU (pdu : bytes)
| Call_sendDisconnectProviderUltimatum (pdu : MCSPDU)
| Call_onInputPDUReceived (events : list bytes)
| ClientHalf_response (gcc : GCCConferenceCreateResponsePDU.t).

(** The session after one call; an exception leaves the session as the
    method left it when it raised. *)
Definition step (c : Call) (self : MITMServer) : MITMServer :=
  match c with
  | Call_buildProtocol => exec buildProtocol self
  | Call_onConnection clientInfo => exec (onConnection clientInfo) self
  | Call_connectionLost reason => exec (TCPLayer_connectionLost reason) self
  | Call_onDisconnectRequest => exec onDisconnectRequest self
  | Call_onDisconnectProviderUltimatum =>
      exec onDisconnectProviderUltimatum self
  | Call_onUnknownTPKTHeader header => exec (onUnknownTPKTHeader header) self
  | Call_onConnectionRequest pdu => exec (onConnectionRequest pdu) self
  | Call_onConnectionConfirm => exec onConnectionConfirm self
  | Call_onConnectInitial pdu => exec (onConnectInitial pdu) self
  | Call_onConnectResponse pdu data =>
      fst (exec (onConnectResponse pdu) (self, data))
  | Call_onAttachUserRequest => exec onAttachUserRequest self
  | Call_onAttachConfirmed user => exec (onAttachConfirmed user) self
  | Call_onAttachRefused user result =>
      exec (onAttachRefused user result) self
  | Call_onChannelJoinRequest pdu => exec (onChannelJoinRequest pdu) self
  | Call_onChannelJoinAccepted userID channelID =>
      exec (onChannelJoinAccepted userID channelID) self
  | Call_onChannelJoinRefused user result channelID =>
      exec (onChannelJoinRefused user result channelID) self
  | Call_buildChannel userID channelID =>
      exec (buildChannel userID channelID) self
  | Call_onSecurityExchangeReceived pdu =>
      exec (onSecurityExchangeReceived pdu) self
  | Call_onClientInfoReceived pdu => exec (onClientInfoReceived pdu) self
  | Call_onLicensingPDU pdu => exec (onLicensingPDU pdu) self
  | Call_sendDisconnectProviderUltimatum pdu =>
      exec (sendDisconnectProviderUltimatum pdu) self
  | Call_onInputPDUReceived events => exec (onInputPDUReceived events) self
  | ClientHalf_response gcc =>
      match client self with
      | Some _ => set_client (Some (MITMClient.make (Some gcc))) self
      | None => self
      end
  end.

Definition run (calls : list Call) (self : MITMServer) : MITMServer :=
  fold_left (fun s c => step c s) calls self.

Definition isConnectionConfirm (c : Call) : bool :=
  match c with
  | Call_onConnectionConfirm => true
  | _ => false
  end.

(** A connect-response that the real server accepted ([result == 0]). *)
Definition successfulConnectResponse (c : Call) : bool :=
  match c with
  | Call_onConnectResponse pdu _ => MCSConnectResponsePDU.result pdu =? 0
  | _ => false
  end.

End Methods.

(** ** A small instance of the collaborators

    Toy parsers and a textbook RSA over byte strings (big-endian integers,
    as the [decrypt] method of the key object takes and returns them), used
    to run the methods on concrete sessions. *)

Module Sample.

Definition Z_of_byte (b : Byte.byte) : Z := Z.of_N (Byte.to_N b).

Definition byte_of_Z (z : Z) : Byte.byte :=
  match Byte.of_N (Z.to_N (z mod 256)) with
  | Some b => b
  | None => Byte.x00
  end.

Definition bytes_to_long (s : bytes) : Z :=
  fold_left (fun acc b => acc * 256 + Z_of_byte b) s 0.

Fixpoint long_to_bytes_from (digits : nat) (z : Z) (acc : bytes) : bytes :=
  match digits with
  | O => acc
  | S digits' =>
      if z =? 0 then acc
      else long_to_bytes_from digits' (z / 256) (byte_of_Z z :: acc)
  end.

Definition long_to_bytes (z : Z) : bytes :=
  long_to_bytes_from (S (Z.to_nat (Z.log2 z))) z [].

Definition textbook_encrypt (key : RSAKey.t) (message : bytes) : bytes :=
  long_to_bytes ((bytes_to_long message ^ RSAKey.e key) mod RSAKey.n key).

Definition textbook_decrypt (key : RSAKey.t) (ciphertext : bytes) : bytes :=
  match RSAKey.d key with
  | Some d => long_to_bytes ((bytes_to_long ciphertext ^ d) mod RSAKey.n key)
  | None => []
  end.

(** The first byte is [requestedProtocols], the rest the cookie. *)
Definition parse_negotiation_request (payload : bytes)
  : Result RDPNegotiationRequestPDU.t :=
  match payload with
  | [] => Raise (ParserError "empty negotiation request")
  | b :: rest =>
      Ok (RDPNegotiationRequestPDU.make
            (Some rest) (Some 0) (Some (Z_of_byte b)) None None None)
  end.

Definition advertises_tls (request : RDPNegotiationRequestPDU.t) : bool :=
  match RDPNegotiationRequestPDU.requestedProtocols request with
  | Some requested => negb (Z.land requested NegotiationProtocols.SSL =? 0)
  | None => false
  end.

Definition write_negotiation_response (pdu : RDPNegotiationResponsePDU.t)
  : bytes :=
  [byte_of_Z (RDPNegotiationResponsePDU.flags pdu);
   byte_of_Z (RDPNegotiationResponsePDU.selectedProtocols pdu)].

Definition parse_gcc (payload : bytes)
  : Result GCCConferenceCreateRequestPDU.t :=
  Ok (GCCConferenceCreateRequestPDU.make [] payload).

Definition write_gcc (pdu : GCCConferenceCreateResponsePDU.t) : bytes :=
  byte_of_Z (GCCConferenceCreateResponsePDU.result pdu)
  :: GCCConferenceCreateResponsePDU.payload pdu.

(** Two bytes: [encryptionMethods] and [extEncryptionMethods]. *)
Definition parse_client_data (payload : bytes) : Result RDPClientDataPDU.t :=
  match payload with
  | m :: x :: rest =>
      Ok (RDPClientDataPDU.make []
            (ClientSecurityData.make (Z_of_byte m) (Z_of_byte x)) rest [])
  | _ => Raise (ParserError "short client data")
  end.

Definition write_server_data (pdu : RDPServerDataPDU.t) : bytes :=
  [byte_of_Z (ServerSecurityData.encryptionMethod
                (RDPServerDataPDU.security pdu));
   byte_of_Z (ServerSecurityData.encryptionLevel
                (RDPServerDataPDU.security pdu))].

Definition collaborators : Collaborators :=
  {| RDPNegotiationRequestParser_parse := parse_negotiation_request;
     tlsSupported := advertises_tls;
     RDPNegotiationResponseParser_write := write_negotiation_response;
     GCCParser_parse := parse_gcc;
     GCCParser_write := write_gcc;
     RDPClientConnectionParser_parse := parse_client_data;
     RDPServerConnectionParser_write := write_server_data;
     RSA_decrypt := textbook_decrypt |}.

(** p = 61, q = 53, n = 3233, e = 17, d = 413. *)
Definition key : RSAKey.t := RSAKey.make 3233 17 (Some 413).

Definition session : MITMServer :=
  MITMServer_init "192.0.2.10" 3389 "cert.pem" "key.pem" key.

(** A request for SSL and HYBRID with a two-byte cookie. *)
Definition connectionRequest : X224ConnectionRequestPDU.t :=
  X224ConnectionRequestPDU.make [Byte.x03; Byte.x61; Byte.x62].

(** Client data that offers 128-bit and FIPS in both fields. *)
Definition connectInitial : MCSConnectInitialPDU.t :=
  MCSConnectInitialPDU.make [Byte.x12; Byte.x12].

Definition conferenceCreateResponse : GCCConferenceCreateResponsePDU.t :=
  GCCConferenceCreateResponsePDU.make 31219 1 0 [].

Definition serverKey : RSAKey.t := RSAKey.make 2773 17 None.

Definition serverCertificate : ProprietaryCertificate.t :=
  ProprietaryCertificate.make 1 1 1 serverKey 8 [Byte.x5a] [Byte.x00].

(** Server data of a Standard Security server that insists on FIPS. *)
Definition serverDataFIPS : RDPServerDataPDU.t :=
  RDPServerDataPDU.make
    (ServerCoreData.make 524292 (Some 1) None)
    (ServerSecurityData.make 16 4 (Some [Byte.x07]) (Some serverCertificate))
    (ServerNetworkData.make 1003 [1005; 1006]).

(** Server data of a TLS session: no encryption method, no certificate. *)
Definition serverDataTLS : RDPServerDataPDU.t :=
  RDPServerDataPDU.make
    (ServerCoreData.make 524292 (Some 1) None)
    (ServerSecurityData.make 0 0 None None)
    (ServerNetworkData.make 1003 [1005; 1006]).

Definition connectResponse : MCSConnectResponsePDU.t :=
  MCSConnectResponsePDU.make 0 0 [34; 3; 0] [].

Definition connectResponseFailure : MCSConnectResponsePDU.t :=
  MCSConnectResponsePDU.make 1 0 [34; 3; 0] [Byte.x2a].

(** The session once the client half exists and the connection request has
    been handled. *)
Definition requested : MITMServer :=
  run (collaborators := collaborators)
    [Call_buildProtocol; Call_onConnectionRequest connectionRequest]
    session.

(** Then the confirm has been written, the Connect-Initial forwarded, and
    the real server has answered the conference-create. *)
Definition negotiated : MITMServer :=
  run (collaborators := collaborators)
    [Call_onConnectionConfirm;
     Call_onConnectInitial connectInitial;
     ClientHalf_response conferenceCreateResponse]
    requested.

(** Then the Connect-Response of the FIPS server has been rewritten. *)
Definition rewritten : MITMServer :=
  run (collaborators := collaborators)
    [Call_onConnectResponse connectResponse serverDataFIPS]
    negotiated.

(** The client random 0x0241 in little-endian byte order, as the client
    sends it: the integer raised to [e] modulo [n], little-endian again. *)
Definition clientRandom : bytes := [Byte.x41; Byte.x02].

Definition securityExchange : RDPSecurityExchangePDU.t :=
  RDPSecurityExchangePDU.make (rev (textbook_encrypt key (rev clientRandom))).

End Sample.


(** * Properties *)

Section Properties.

Context {collaborators : Collaborators}.

Ltac unfold_monad :=
  unfold exec, outcome, onSelf, onArgument, bind, ret, raise, get, modify,
    emit, deref, liftResult in *.

Ltac unfold_methods :=
  unfold buildProtocol, onConnection, TCPLayer_connectionLost,
    onDisconnection, onDisconnectRequest, onDisconnectProviderUltimatum,
    onUnknownTPKTHeader, disconnect, TCPLayer_disconnect,
    disconnectConnector, onConnectionRequest, connectClient,
    onConnectionConfirm, TCPLayer_startTLS,
    onConnectInitial, onConnectResponse, onAttachUserRequest,
    onAttachConfirmed, onAttachRefused, onChannelJoinRequest,
    onChannelJoinAccepted, onChannelJoinRefused, buildChannel,
    onSecurityExchangeReceived, onClientInfoReceived, onLicensingPDU,
    sendDisconnectProviderUltimatum, onInputPDUReceived;
  unfold_monad.

(** Case analysis on whatever a reduced method is stuck on: an optional
    attribute, a parser's answer or a comparison. *)
Ltac split_cases :=
  repeat match goal with
         | |- context [match ?x with _ => _ end] =>
             is_var x; destruct x; simpl
         | |- context [match ?f ?x with _ => _ end] =>
             is_var x; destruct (f x); simpl
         | |- context [match ?f (?g ?x) with _ => _ end] =>
             is_var x; destruct (f (g x)); simpl
         | |- context [?x =? ?y] => destruct (x =? y); simpl
         end.

(** What [disconnect()] establishes: the client-facing transport is closing
    or closed, and no outbound connector is held any more. *)
Definition disconnected (self : MITMServer) : Prop :=
  tcp self <> TCPLayer.OPEN /\ clientConnector self = None.

(** The target request that [onConnectionRequest] builds from the original
    one. *)
Definition maskedToSSL (original : RDPNegotiationRequestPDU.t)
  : RDPNegotiationRequestPDU.t :=
  RDPNegotiationRequestPDU.make
    (RDPNegotiationRequestPDU.cookie original)
    (RDPNegotiationRequestPDU.flags original)
    match RDPNegotiationRequestPDU.requestedProtocols original with
    | Some requested => Some (Z.land requested NegotiationProtocols.SSL)
    | None => None
    end
    (RDPNegotiationRequestPDU.correlationFlags original)
    (RDPNegotiationRequestPDU.correlationID original)
    (RDPNegotiationRequestPDU.reserved original).

(** The two negotiation requests of a session are both absent, or the
    target is the original masked to SSL. *)
Definition negotiationConsistent (self : MITMServer) : Prop :=
  match originalNegotiationPDU self, targetNegotiationPDU self with
  | None, None => True
  | Some original, Some target => target = maskedToSSL original
  | _, _ => False
  end.


Definition cancelsConnector (e : Effect) : bool :=
  match e with
  | Connector_disconnect _ => true
  | _ => false
  end.

Definition startsTLS (e : Effect) : bool :=
  match e with
  | TCP_startTLS _ => true
  | _ => false
  end.

Definition occurrences (p : Effect -> bool) (trace : list Effect) : nat :=
  List.length (filter p trace).


(** No FIPS anywhere in what the session keeps for the I/O channel: the
    rewritten ServerData, the RC4 security layer, the fast-path parser. *)
Definition withoutFIPS (self : MITMServer) : bool :=
  match serverData self with
  | Some data =>
      negb (ServerSecurityData.encryptionMethod
              (RDPServerDataPDU.security data)
            =? EncryptionMethod.ENCRYPTION_FIPS)
      && negb (ServerSecurityData.encryptionLevel
                 (RDPServerDataPDU.security data)
               =? EncryptionLevel.ENCRYPTION_LEVEL_FIPS)
  | None => true
  end
  && match securityLayer self with
     | Some layer =>
         match SecurityLayer.kind layer with
         | SecurityLayer.NonTLSSecurityLayer method _ =>
             negb (method =? EncryptionMethod.ENCRYPTION_FIPS)
         | SecurityLayer.TLSSecurityLayer => true
         end
     | None => true
     end
  && match fastPathParser self with
     | Some parser =>
         negb (FastPathParser.encryptionMethod parser
               =? EncryptionMethod.ENCRYPTION_FIPS)
     | None => true
     end.

(** The certificate, if any, in the ServerData that the session keeps. *)
Definition keptCertificate (self : MITMServer)
  : option ProprietaryCertificate.t :=
  match serverData self with
  | Some data =>
      ServerSecurityData.serverCertificate (RDPServerDataPDU.security data)
  | None => None
  end.

(** A session that got a Connection Request and an accepted
    Connect-Response although no client half was ever built: the
    Connect-Response raised, after it had assigned [serverData]. *)
Definition sessionWithoutClientHalf : MITMServer :=
  run (collaborators := Sample.collaborators)
    [Call_onConnectionRequest Sample.connectionRequest;
     Call_onConnectResponse Sample.connectResponse Sample.serverDataFIPS]
    Sample.session.

(** The calls that lead to [Sample.rewritten], followed by the join and the
    build of the I/O channel and the licensing PDU. *)
Definition fullHandshake : list Call :=
  [Call_buildProtocol;
   Call_onConnectionRequest Sample.connectionRequest;
   Call_onConnectionConfirm;
   Call_onConnectInitial Sample.connectInitial;
   ClientHalf_response Sample.conferenceCreateResponse;
   Call_onConnectResponse Sample.connectResponse Sample.serverDataFIPS;
   Call_onAttachUserRequest;
   Call_onChannelJoinRequest (MCSChannelJoinRequestPDU.make 7 1003);
   Call_buildChannel 7 1003;
   Call_onLicensingPDU [Byte.xff]].

(** The ServerData that [Sample.rewritten] keeps. *)
Definition rewrittenServerData : RDPServerDataPDU.t :=
  RDPServerDataPDU.make
    (ServerCoreData.make 524292 (Some 3) None)
    (ServerSecurityData.make 2 3 (Some [Byte.x07])
       (Some (ProprietaryCertificate.make
                1 1 1 Sample.key 8 [Byte.x5a] [Byte.x00])))
    (ServerNetworkData.make 1003 []).

Definition sampleOriginalRequest : RDPNegotiationRequestPDU.t :=
  RDPNegotiationRequestPDU.make
    (Some [Byte.x61; Byte.x62]) (Some 0) (Some 3) None None None.

Definition sampleClientHalf : MITMClient.t :=
  MITMClient.make (Some Sample.conferenceCreateResponse).

(** The certificate of [Sample.serverDataFIPS] with the key of the MITM. *)
Definition sampleCertified : ProprietaryCertificate.t :=
  ProprietaryCertificate.make 1 1 1 Sample.key 8 [Byte.x5a] [Byte.x00].

(** The minimal big-endian writing of a number has no leading zero byte;
    zero itself is written as one zero byte. *)
Definition minimalBigEndian (s : bytes) : bool :=
  match s with
  | Byte.x00 :: _ :: _ => false
  | _ => true
  end.

(** A client random that ends in a zero byte, and the Security Exchange PDU
    a client makes of it for [Sample.key]. *)
Definition clientRandomEndingInZero : bytes := [Byte.x41; Byte.x00].

Definition securityExchangeEndingInZero : RDPSecurityExchangePDU.t :=
  RDPSecurityExchangePDU.make
    (rev (Sample.textbook_encrypt Sample.key (rev clientRandomEndingInZero))).

(** ** Helper lemmas *)

Lemma app_one_assoc (l : list Effect) (a : Effect) (r : list Effect) :
  (l ++ [a]) ++ r = l ++ a :: r.
Proof. rewrite <- app_assoc. reflexivity. Qed.

Lemma FIPS_bit (i : Z) :
  Z.testbit EncryptionMethod.ENCRYPTION_FIPS i = (i =? 4).
Proof.
  destruct (Z.ltb_spec i 0) as [Hneg | Hpos].
  - rewrite Z.testbit_neg_r by assumption.
    symmetry. apply Z.eqb_neq. lia.
  - change EncryptionMethod.ENCRYPTION_FIPS with (2 ^ 4).
    rewrite Z.pow2_bits_eqb by lia.
    apply Z.eqb_sym.
Qed.

Lemma clear_FIPS_bit (flags i : Z) :
  Z.testbit (Z.land flags (Z.lnot EncryptionMethod.ENCRYPTION_FIPS)) i
  = Z.testbit flags i && negb (i =? 4).
Proof.
  rewrite Z.land_spec.
  destruct (Z.ltb_spec i 0) as [Hneg | Hpos].
  - rewrite (Z.testbit_neg_r flags) by assumption. reflexivity.
  - rewrite Z.lnot_spec by assumption. rewrite FIPS_bit. reflexivity.
Qed.

Lemma disconnectConnector_run (self : MITMServer) :
  disconnectConnector self
  = (Ok tt,
     match clientConnector self with
     | Some connector =>
         set_clientConnector None
           (record_effect (Connector_disconnect connector) self)
     | None => self
     end).
Proof.
  unfold disconnectConnector. unfold_monad.
  destruct (clientConnector self); reflexivity.
Qed.

Lemma TCPLayer_disconnect_run (self : MITMServer) :
  TCPLayer_disconnect self
  = (Ok tt,
     match tcp self with
     | TCPLayer.OPEN =>
         record_effect Transport_loseConnection
           (set_tcp TCPLayer.CLOSING self)
     | _ => self
     end).
Proof.
  unfold TCPLayer_disconnect. unfold_monad.
  destruct (tcp self); reflexivity.
Qed.

Lemma disconnect_run (self : MITMServer) :
  disconnect self
  = (Ok tt, exec disconnectConnector (exec TCPLayer_disconnect self)).
Proof.
  unfold disconnect, bind, exec.
  rewrite TCPLayer_disconnect_run. simpl.
  rewrite disconnectConnector_run. reflexivity.
Qed.

Lemma disconnect_disconnected (self : MITMServer) :
  disconnected (exec disconnect self).
Proof.
  unfold exec. rewrite disconnect_run. unfold exec.
  rewrite TCPLayer_disconnect_run, disconnectConnector_run. simpl.
  unfold disconnected.
  destruct (tcp self) eqn:Htcp; simpl;
    destruct (clientConnector self) eqn:Hconn; simpl;
    rewrite ?Htcp, ?Hconn; simpl; rewrite ?Htcp;
    split; congruence.
Qed.

(** ** Connection request and confirm *)

(** C2. When the negotiation parser accepts the payload of an X.224
    Connection Request, [onConnectionRequest] stores the parsed request as
    the original one and builds the target request (the one
    [getNegotiationPDU] hands to the client half) whose [requestedProtocols]
    is the original value ANDed with the SSL flag, or [None] when the
    original is [None]; [cookie], [flags], [correlationFlags],
    [correlationID] and [reserved] are those of the original. The outbound
    connection to the target is then started. *)
Theorem onConnectionRequest_masks_to_SSL :
  forall (pdu : X224ConnectionRequestPDU.t) (self : MITMServer)
         (original : RDPNegotiationRequestPDU.t),
    RDPNegotiationRequestParser_parse (X224ConnectionRequestPDU.payload pdu)
      = Ok original ->
    exists target : RDPNegotiationRequestPDU.t,
      outcome (onConnectionRequest pdu) self = Ok tt /\
      originalNegotiationPDU (exec (onConnectionRequest pdu) self)
        = Some original /\
      targetNegotiationPDU (exec (onConnectionRequest pdu) self)
        = Some target /\
      outcome getNegotiationPDU (exec (onConnectionRequest pdu) self)
        = Ok (Some target) /\
      RDPNegotiationRequestPDU.requestedProtocols target
        = match RDPNegotiationRequestPDU.requestedProtocols original with
          | Some requested => Some (Z.land requested NegotiationProtocols.SSL)
          | None => None
          end /\
      RDPNegotiationRequestPDU.cookie target
        = RDPNegotiationRequestPDU.cookie original /\
      RDPNegotiationRequestPDU.flags target
        = RDPNegotiationRequestPDU.flags original /\
      RDPNegotiationRequestPDU.correlationFlags target
        = RDPNegotiationRequestPDU.correlationFlags original /\
      RDPNegotiationRequestPDU.correlationID target
        = RDPNegotiationRequestPDU.correlationID original /\
      RDPNegotiationRequestPDU.reserved target
        = RDPNegotiationRequestPDU.reserved original /\
      effects (exec (onConnectionRequest pdu) self)
        = effects self
          ++ [Reactor_connectTCP (targetHost self) (targetPort self)].
Proof.
  intros pdu self original Hparse.
  eexists.
  unfold onConnectionRequest, connectClient, getNegotiationPDU.
  unfold_monad. rewrite Hparse. simpl.
  repeat split; reflexivity.
Qed.

(** [useTLS] is written by [onConnectionConfirm] and by no other method. *)
Lemma step_keeps_useTLS (c : Call) (self : MITMServer) :
  c <> Call_onConnectionConfirm ->
  useTLS (step c self) = useTLS self.
Proof.
  intros Hc. destruct self.
  destruct c; try congruence; simpl; unfold_methods; simpl; split_cases;
    reflexivity.
Qed.

Lemma useTLS_false_before_confirm (calls : list Call) :
  forall self : MITMServer,
    existsb isConnectionConfirm calls = false ->
    useTLS self = false ->
    useTLS (run calls self) = false.
Proof.
  induction calls as [| c calls IH]; intros self Hcalls HuseTLS.
  - exact HuseTLS.
  - simpl in Hcalls. apply orb_false_elim in Hcalls as [Hc Hrest].
    simpl. apply IH; [exact Hrest |].
    rewrite step_keeps_useTLS; [exact HuseTLS |].
    intros Heq. subst c. discriminate Hc.
Qed.

(** C3. In a session that holds the original negotiation request,
    [onConnectionConfirm] writes one X.224 Connection Confirm, with source
    0x1234, whose negotiation response selects SSL when the original request
    has [tlsSupported] and NONE otherwise; it starts TLS on the TCP layer,
    with a server context made of the configured private key and
    certificate, exactly when the request has [tlsSupported], and [useTLS]
    (false until then) becomes true exactly in that case. *)
Theorem onConnectionConfirm_advertises_TLS_iff_requested :
  forall (self : MITMServer) (original : RDPNegotiationRequestPDU.t),
    originalNegotiationPDU self = Some original ->
    let after := exec onConnectionConfirm self in
    let selected :=
      if tlsSupported original
      then NegotiationProtocols.SSL else NegotiationProtocols.NONE in
    let context :=
      ServerTLSContext.make (privateKeyFileName self)
                            (certificateFileName self) in
    outcome onConnectionConfirm self = Ok tt /\
    effects after
      = effects self
        ++ X224_sendConnectionConfirm
             (RDPNegotiationResponseParser_write
                (RDPNegotiationResponsePDU.make 0 selected))
             0x1234
           :: (if tlsSupported original then [TCP_startTLS context] else []) /\
    (selected = NegotiationProtocols.SSL <-> tlsSupported original = true) /\
    (selected = NegotiationProtocols.NONE <-> tlsSupported original = false) /\
    (In (TCP_startTLS context) (skipn (List.length (effects self)) (effects after))
     <-> tlsSupported original = true) /\
    useTLS after = (useTLS self || tlsSupported original)%bool /\
    (useTLS self = false ->
     (useTLS after = true <-> tlsSupported original = true)).
Proof.
  intros self original Horiginal after selected context.
  subst after selected context.
  unfold onConnectionConfirm, TCPLayer_startTLS. unfold_monad.
  rewrite Horiginal. simpl.
  destruct (tlsSupported original) eqn:Htls; simpl.
  - rewrite app_one_assoc.
    split; [reflexivity |]. split; [reflexivity |].
    split; [split; reflexivity |].
    split; [split; discriminate |].
    split.
    + rewrite skipn_app, skipn_all, Nat.sub_diag. simpl.
      split; [reflexivity | intros _; right; left; reflexivity].
    + split; [apply eq_sym, orb_true_r |].
      intros _. split; reflexivity.
  - split; [reflexivity |]. split; [reflexivity |].
    split; [split; discriminate |].
    split; [split; reflexivity |].
    split.
    + rewrite skipn_app, skipn_all, Nat.sub_diag. simpl.
      split; [intros [Hin | [ ]]; discriminate | discriminate].
    + split; [apply eq_sym, orb_false_r |].
      intros Hfalse. rewrite Hfalse. split; discriminate.
Qed.

(** ** Connect-Initial *)

(** C7. When the GCC parser and the client-data parser accept a
    Connect-Initial and the client half exists, [onConnectInitial] hands the
    parsed conference-create request and the client data to the client half
    and returns True; in the client data handed over, bit 4
    ([ENCRYPTION_FIPS]) of [encryptionMethods] and of [extEncryptionMethods]
    is clear, every other bit of both fields is as parsed, and the other
    blocks are as parsed. *)
Theorem onConnectInitial_clears_FIPS :
  forall (pdu : MCSConnectInitialPDU.t) (self : MITMServer)
         (gcc : GCCConferenceCreateRequestPDU.t)
         (parsed : RDPClientDataPDU.t) (mitmClient : MITMClient.t),
    GCCParser_parse (MCSConnectInitialPDU.payload pdu) = Ok gcc ->
    RDPClientConnectionParser_parse (GCCConferenceCreateRequestPDU.payload gcc)
      = Ok parsed ->
    client self = Some mitmClient ->
    exists forwarded : RDPClientDataPDU.t,
      onConnectInitial pdu self
        = (Ok true, record_effect (Client_onConnectInitial gcc forwarded) self)
      /\
      let before := RDPClientDataPDU.securityData parsed in
      let after := RDPClientDataPDU.securityData forwarded in
      ClientSecurityData.encryptionMethods after
        = Z.land (ClientSecurityData.encryptionMethods before)
                 (Z.lnot EncryptionMethod.ENCRYPTION_FIPS) /\
      ClientSecurityData.extEncryptionMethods after
        = Z.land (ClientSecurityData.extEncryptionMethods before)
                 (Z.lnot EncryptionMethod.ENCRYPTION_FIPS) /\
      Z.land (ClientSecurityData.encryptionMethods after)
             EncryptionMethod.ENCRYPTION_FIPS = 0 /\
      Z.land (ClientSecurityData.extEncryptionMethods after)
             EncryptionMethod.ENCRYPTION_FIPS = 0 /\
      (forall i : Z,
          Z.testbit (ClientSecurityData.encryptionMethods after) i
          = if i =? 4 then false
            else Z.testbit (ClientSecurityData.encryptionMethods before) i) /\
      (forall i : Z,
          Z.testbit (ClientSecurityData.extEncryptionMethods after) i
          = if i =? 4 then false
            else Z.testbit (ClientSecurityData.extEncryptionMethods before) i)
      /\
      RDPClientDataPDU.coreData forwarded = RDPClientDataPDU.coreData parsed /\
      RDPClientDataPDU.networkData forwarded
        = RDPClientDataPDU.networkData parsed /\
      RDPClientDataPDU.clusterData forwarded
        = RDPClientDataPDU.clusterData parsed.
Proof.
  intros pdu self gcc parsed mitmClient Hgcc Hparsed Hclient.
  eexists. split.
  - unfold onConnectInitial. unfold_monad.
    rewrite Hgcc, Hparsed, Hclient. reflexivity.
  - simpl.
    assert (Hclear : forall flags : Z,
               Z.land (Z.land flags (Z.lnot EncryptionMethod.ENCRYPTION_FIPS))
                      EncryptionMethod.ENCRYPTION_FIPS = 0).
    { intros flags. apply Z.bits_inj'. intros i _.
      rewrite Z.land_spec, clear_FIPS_bit, FIPS_bit, Z.bits_0.
      destruct (i =? 4), (Z.testbit flags i); reflexivity. }
    assert (Hbits : forall flags i : Z,
               Z.testbit
                 (Z.land flags (Z.lnot EncryptionMethod.ENCRYPTION_FIPS)) i
               = if i =? 4 then false else Z.testbit flags i).
    { intros flags i. rewrite clear_FIPS_bit.
      destruct (i =? 4), (Z.testbit flags i); reflexivity. }
    repeat split; auto.
Qed.

(** ** Connect-Response *)

(** C1 (amended). For a Connect-Response with [result == 0], in a session
    that holds the original negotiation request and a client half with its
    conference-create response, [onConnectResponse] returns normally, keeps
    the rewritten ServerData in [self.serverData] and sends the client an MCS
    Connect-Response that carries it, serialized, inside the conference-create
    response. In that ServerData [clientRequestedProtocols] is the original
    [requestedProtocols], [encryptionMethod] is not FIPS (FIPS became
    128BIT), [encryptionLevel] is not FIPS (FIPS became HIGH),
    [network.channels] is empty, and a server certificate, when the real
    server sent one, has the key of the MITM as its public key and its
    other fields untouched; when the real server sent no certificate, none
    is sent to the client. *)
Theorem onConnectResponse_rewrites_ServerData :
  forall (pdu : MCSConnectResponsePDU.t) (self : MITMServer)
         (data : RDPServerDataPDU.t)
         (original : RDPNegotiationRequestPDU.t)
         (mitmClient : MITMClient.t) (gcc : GCCConferenceCreateResponsePDU.t),
    MCSConnectResponsePDU.result pdu = 0 ->
    originalNegotiationPDU self = Some original ->
    client self = Some mitmClient ->
    MITMClient.conferenceCreateResponse mitmClient = Some gcc ->
    exists sent : RDPServerDataPDU.t,
      let after := fst (exec (onConnectResponse pdu) (self, data)) in
      let received := RDPServerDataPDU.security data in
      outcome (onConnectResponse pdu) (self, data) = Ok tt /\
      serverData after = Some sent /\
      effects after
        = effects self
          ++ [SecuritySettings_serverSecurityReceived
                (RDPServerDataPDU.security sent);
              MCS_send
                (MCSPDU_ConnectResponse
                   (MCSConnectResponsePDU.make
                      (MCSConnectResponsePDU.result pdu)
                      (MCSConnectResponsePDU.calledConnectID pdu)
                      (MCSConnectResponsePDU.domainParams pdu)
                      (GCCParser_write
                         (GCCConferenceCreateResponsePDU.make
                            (GCCConferenceCreateResponsePDU.nodeID gcc)
                            (GCCConferenceCreateResponsePDU.tag gcc)
                            (GCCConferenceCreateResponsePDU.result gcc)
                            (RDPServerConnectionParser_write sent)))))] /\
      ServerCoreData.clientRequestedProtocols (RDPServerDataPDU.core sent)
        = RDPNegotiationRequestPDU.requestedProtocols original /\
      ServerSecurityData.encryptionMethod (RDPServerDataPDU.security sent)
        <> EncryptionMethod.ENCRYPTION_FIPS /\
      ServerSecurityData.encryptionMethod (RDPServerDataPDU.security sent)
        = (if ServerSecurityData.encryptionMethod received
              =? EncryptionMethod.ENCRYPTION_FIPS
           then EncryptionMethod.ENCRYPTION_128BIT
           else ServerSecurityData.encryptionMethod received) /\
      ServerSecurityData.encryptionLevel (RDPServerDataPDU.security sent)
        <> EncryptionLevel.ENCRYPTION_LEVEL_FIPS /\
      ServerSecurityData.encryptionLevel (RDPServerDataPDU.security sent)
        = (if ServerSecurityData.encryptionLevel received
              =? EncryptionLevel.ENCRYPTION_LEVEL_FIPS
           then EncryptionLevel.ENCRYPTION_LEVEL_HIGH
           else ServerSecurityData.encryptionLevel received) /\
      ServerNetworkData.channels (RDPServerDataPDU.network sent) = [] /\
      match ServerSecurityData.serverCertificate received with
      | Some cert =>
          ServerSecurityData.serverCertificate (RDPServerDataPDU.security sent)
          = Some (ProprietaryCertificate.make
                    (ProprietaryCertificate.signatureAlgorithmID cert)
                    (ProprietaryCertificate.keyAlgorithmID cert)
                    (ProprietaryCertificate.publicKeyType cert)
                    (rc4RSAKey self)
                    (ProprietaryCertificate.signatureType cert)
                    (ProprietaryCertificate.signature cert)
                    (ProprietaryCertificate.padding cert))
      | None =>
          ServerSecurityData.serverCertificate (RDPServerDataPDU.security sent)
          = None
      end.
Proof.
  intros pdu self data original mitmClient gcc Hresult Horiginal Hclient Hgcc.
  eexists.
  unfold onConnectResponse. rewrite Hresult. simpl.
  unfold_monad. simpl. rewrite Horiginal. simpl.
  rewrite Hclient. simpl. rewrite Hgcc. simpl.
  split; [reflexivity |]. split; [reflexivity |].
  split; [rewrite app_one_assoc; reflexivity |].
  split; [reflexivity |].
  split.
  { destruct (Z.eqb_spec
                (ServerSecurityData.encryptionMethod
                   (RDPServerDataPDU.security data))
                EncryptionMethod.ENCRYPTION_FIPS); simpl;
      [discriminate | assumption]. }
  split.
  { destruct (ServerSecurityData.encryptionMethod
                (RDPServerDataPDU.security data)
              =? EncryptionMethod.ENCRYPTION_FIPS); reflexivity. }
  split.
  { destruct (Z.eqb_spec
                (ServerSecurityData.encryptionLevel
                   (RDPServerDataPDU.security data))
                EncryptionLevel.ENCRYPTION_LEVEL_FIPS); simpl;
      [discriminate | assumption]. }
  split.
  { destruct (ServerSecurityData.encryptionLevel
                (RDPServerDataPDU.security data)
              =? EncryptionLevel.ENCRYPTION_LEVEL_FIPS); reflexivity. }
  split; [reflexivity |].
  destruct (ServerSecurityData.serverCertificate
              (RDPServerDataPDU.security data)); reflexivity.
Qed.

(** C6 (amended). For a Connect-Response with [result != 0],
    [onConnectResponse] sends the client that very PDU and returns; the
    ServerData passed along is not modified, [self.serverData] is not
    assigned, and the method itself closes nothing: the TCP layer and the
    outbound connector are as they were. *)
Theorem onConnectResponse_failure_forwarded :
  forall (pdu : MCSConnectResponsePDU.t) (self : MITMServer)
         (data : RDPServerDataPDU.t),
    MCSConnectResponsePDU.result pdu <> 0 ->
    let after := fst (exec (onConnectResponse pdu) (self, data)) in
    onConnectResponse pdu (self, data)
      = (Ok tt,
         (record_effect (MCS_send (MCSPDU_ConnectResponse pdu)) self, data)) /\
    effects after = effects self ++ [MCS_send (MCSPDU_ConnectResponse pdu)] /\
    snd (exec (onConnectResponse pdu) (self, data)) = data /\
    serverData after = serverData self /\
    tcp after = tcp self /\
    clientConnector after = clientConnector self.
Proof.
  intros pdu self data Hresult after. subst after.
  unfold onConnectResponse.
  apply Z.eqb_neq in Hresult. rewrite Hresult. simpl.
  unfold_monad. simpl. repeat split; reflexivity.
Qed.

(** ** Channel join *)

(** C5. In a session that holds the rewritten ServerData,
    [onChannelJoinRequest] returns normally when the requested channel is not
    the I/O channel, and also for the I/O channel when the client half
    exists. A join of the I/O channel ([serverData.network.mcsChannelID]) is
    handed to the client half and answered with no confirm by this method;
    the confirm follows when the client half calls [onChannelJoinAccepted].
    A join of any other channel is answered at once: channel 1004 with
    [RT_SUCCESSFUL], every other channel with [RT_USER_REJECTED]. *)
Theorem onChannelJoinRequest_confirms_only_io_and_1004 :
  forall (pdu : MCSChannelJoinRequestPDU.t) (self : MITMServer)
         (data : RDPServerDataPDU.t),
    serverData self = Some data ->
    let channel := MCSChannelJoinRequestPDU.channelID pdu in
    let io := ServerNetworkData.mcsChannelID (RDPServerDataPDU.network data) in
    let confirm (result : Z) :=
      Router_sendChannelJoinConfirm
        result (MCSChannelJoinRequestPDU.initiator pdu) channel (Some false) in
    (channel = io ->
     forall mitmClient : MITMClient.t,
       client self = Some mitmClient ->
       onChannelJoinRequest pdu self
         = (Ok tt, record_effect (Client_onChannelJoinRequest pdu) self)) /\
    (channel <> io -> channel = 1004 ->
     onChannelJoinRequest pdu self
       = (Ok tt, record_effect (confirm MCSResult.RT_SUCCESSFUL) self)) /\
    (channel <> io -> channel <> 1004 ->
     onChannelJoinRequest pdu self
       = (Ok tt, record_effect (confirm MCSResult.RT_USER_REJECTED) self)) /\
    (forall (result userID channelID : Z) (notify : option bool),
        In (Router_sendChannelJoinConfirm result userID channelID notify)
           (skipn (List.length (effects self))
                  (effects (exec (onChannelJoinRequest pdu) self))) ->
        channelID = channel /\ channel <> io /\
        (result = MCSResult.RT_SUCCESSFUL <-> channel = 1004) /\
        (result = MCSResult.RT_USER_REJECTED <-> channel <> 1004)) /\
    (forall userID : Z,
        onChannelJoinAccepted userID io self
        = (Ok tt,
           record_effect (Router_sendChannelJoinConfirm
                            MCSResult.RT_SUCCESSFUL userID io None) self)).
Proof.
  intros pdu self data Hdata channel io confirm.
  subst channel io confirm.
  unfold onChannelJoinRequest, onChannelJoinAccepted. unfold_monad.
  rewrite Hdata. simpl.
  destruct (Z.eqb_spec (MCSChannelJoinRequestPDU.channelID pdu)
              (ServerNetworkData.mcsChannelID (RDPServerDataPDU.network data)))
    as [Hio | Hio].
  - split; [intros _ mitmClient Hclient; rewrite Hclient; reflexivity |].
    split; [intros Hne; congruence |].
    split; [intros Hne; congruence |].
    split; [| reflexivity].
    intros result userID channelID notify.
    destruct (client self); simpl; unfold record_effect; simpl;
      rewrite ?skipn_app, ?skipn_all, ?Nat.sub_diag; simpl;
      [intros [Hin | [ ]]; discriminate | intros [ ]].
  - split; [intros Heq; congruence |].
    destruct (Z.eqb_spec (MCSChannelJoinRequestPDU.channelID pdu) 1004)
      as [Huser | Huser].
    + split; [reflexivity |].
      split; [intros _ Hne; congruence |].
      split; [| reflexivity].
      intros result userID channelID notify. unfold record_effect. simpl.
      rewrite skipn_app, skipn_all, Nat.sub_diag. simpl.
      intros [Hin | [ ]]. inversion Hin; subst.
      split; [reflexivity |]. split; [assumption |].
      unfold MCSResult.RT_SUCCESSFUL, MCSResult.RT_USER_REJECTED.
      split; split; intros; try assumption; try reflexivity;
        try discriminate; congruence.
    + split; [intros _ Heq; congruence |].
      split; [reflexivity |].
      split; [| reflexivity].
      intros result userID channelID notify. unfold record_effect. simpl.
      rewrite skipn_app, skipn_all, Nat.sub_diag. simpl.
      intros [Hin | [ ]]. inversion Hin; subst.
      split; [reflexivity |]. split; [assumption |].
      unfold MCSResult.RT_SUCCESSFUL, MCSResult.RT_USER_REJECTED.
      split; split; intros; try assumption; try reflexivity;
        try discriminate; congruence.
Qed.

(** ** Security exchange *)

Lemma onSecurityExchangeReceived_run
  (pdu : RDPSecurityExchangePDU.t) (self : MITMServer) :
  onSecurityExchangeReceived pdu self
  = (Ok tt,
     record_effect
       (SecuritySettings_setClientRandom
          (rev (RSA_decrypt (rc4RSAKey self)
                            (rev (RDPSecurityExchangePDU.clientRandom pdu)))))
       self).
Proof. reflexivity. Qed.

(** C4 (the code falls short of the claim). [onSecurityExchangeReceived]
    passes to [SecuritySettings.setClientRandom] the output of the key's
    [decrypt], reversed. When that output is the minimal big-endian writing
    of the decrypted number, the value passed cannot end in a zero byte: a
    plaintext client random of two bytes or more whose last byte is 0x00 is
    not what reaches [setClientRandom], whatever the PDU carries. *)
Theorem onSecurityExchangeReceived_loses_trailing_zero_bytes :
  forall (pdu : RDPSecurityExchangePDU.t) (self : MITMServer)
         (body : bytes),
    minimalBigEndian
      (RSA_decrypt (rc4RSAKey self)
                   (rev (RDPSecurityExchangePDU.clientRandom pdu))) = true ->
    body <> [] ->
    exists passed : bytes,
      onSecurityExchangeReceived pdu self
        = (Ok tt,
           record_effect (SecuritySettings_setClientRandom passed) self) /\
      passed
        = rev (RSA_decrypt (rc4RSAKey self)
                           (rev (RDPSecurityExchangePDU.clientRandom pdu))) /\
      passed <> body ++ [Byte.x00].
Proof.
  intros pdu self body Hminimal Hbody.
  eexists. split; [apply onSecurityExchangeReceived_run |].
  split; [reflexivity |].
  intros Hsame.
  apply (f_equal (@rev Byte.byte)) in Hsame.
  rewrite rev_involutive, rev_app_distr in Hsame. simpl in Hsame.
  rewrite Hsame in Hminimal.
  destruct (rev body) as [| b rest] eqn:Hrev.
  - apply (f_equal (@rev Byte.byte)) in Hrev.
    rewrite rev_involutive in Hrev. simpl in Hrev. contradiction.
  - simpl in Hminimal. discriminate Hminimal.
Qed.

(** ** Teardown *)

Lemma TCPLayer_connectionLost_run (reason : string) (self : MITMServer) :
  tcp self <> TCPLayer.CLOSED ->
  TCPLayer_connectionLost reason self
  = (Ok tt, exec (onDisconnection reason) (set_tcp TCPLayer.CLOSED self)).
Proof.
  intros Hopen. unfold TCPLayer_connectionLost, onDisconnection,
    disconnectConnector.
  unfold_monad.
  destruct self. simpl in *.
  destruct tcp0; try congruence; simpl;
    destruct client0; simpl; destruct clientConnector0; reflexivity.
Qed.

(** C8. On a session whose client-facing connection is not yet closed,
    [onUnknownTPKTHeader] is [disconnect]: the TCP layer is told to
    disconnect, which closes the transport if it was still open, and the
    outbound connector, if there is one, is cancelled and forgotten. When
    the TCP layer then reports the end of the connection,
    [onDisconnection] records a [CONNECTION_CLOSE] marker and disconnects
    the client half. *)
Theorem onUnknownTPKTHeader_disconnects :
  forall (header : Z) (self : MITMServer) (reason : string),
    tcp self <> TCPLayer.CLOSED ->
    let closing := exec (onUnknownTPKTHeader header) self in
    let closed := exec (TCPLayer_connectionLost reason) closing in
    onUnknownTPKTHeader header self = disconnect self /\
    outcome (onUnknownTPKTHeader header) self = Ok tt /\
    disconnected closing /\
    tcp closing = TCPLayer.CLOSING /\
    effects closing
      = effects self
        ++ match tcp self with
           | TCPLayer.OPEN => [Transport_loseConnection]
           | _ => []
           end
        ++ match clientConnector self with
           | Some connector => [Connector_disconnect connector]
           | None => []
           end /\
    outcome (TCPLayer_connectionLost reason) closing = Ok tt /\
    tcp closed = TCPLayer.CLOSED /\
    effects closed
      = effects closing
        ++ Recorder_record (Recorded_FastPath (RDPFastPathPDU.make 0 []))
                           CONNECTION_CLOSE
           :: match client self with
              | Some _ => [Client_disconnect]
              | None => []
              end.
Proof.
  intros header self reason Hopen closing closed.
  subst closing closed.
  split; [reflexivity |].
  split; [unfold outcome, onUnknownTPKTHeader; rewrite disconnect_run;
          reflexivity |].
  split; [apply disconnect_disconnected |].
  unfold onUnknownTPKTHeader, disconnect, onDisconnection,
    TCPLayer_connectionLost, TCPLayer_disconnect, disconnectConnector.
  unfold_monad.
  destruct self. simpl in *.
  destruct tcp0; try congruence; simpl;
    destruct clientConnector0; simpl; destruct client0; simpl;
    rewrite ?app_nil_r, ?app_one_assoc; repeat split; reflexivity.
Qed.

(** C9. [disconnect()] called a second time, directly or after the end of
    the connection has been reported, changes nothing at all: the session
    and its trace (transport closed, connector cancelled, markers recorded)
    are those of the single call. In particular [disconnectConnector]
    leaves [clientConnector] at [None], so that calling it again does
    nothing. *)
Theorem disconnect_idempotent :
  forall (self : MITMServer) (reason : string),
    let once := exec disconnect self in
    disconnect once = (Ok tt, once) /\
    (disconnect ;; disconnect)%method self = disconnect self /\
    clientConnector (exec disconnectConnector self) = None /\
    disconnectConnector (exec disconnectConnector self)
      = (Ok tt, exec disconnectConnector self) /\
    exec (TCPLayer_connectionLost reason) (exec disconnect once)
      = exec (TCPLayer_connectionLost reason) once /\
    disconnect (exec (TCPLayer_connectionLost reason) once)
      = (Ok tt, exec (TCPLayer_connectionLost reason) once).
Proof.
  intros self reason once. subst once.
  assert (Hagain : disconnect (exec disconnect self)
                   = (Ok tt, exec disconnect self)).
  { unfold disconnect, TCPLayer_disconnect, disconnectConnector.
    unfold_monad. destruct self. simpl.
    destruct tcp0; simpl; destruct clientConnector0; reflexivity. }
  split; [exact Hagain |].
  split.
  { unfold disconnect, TCPLayer_disconnect, disconnectConnector.
    unfold_monad. destruct self. simpl.
    destruct tcp0; simpl; destruct clientConnector0; reflexivity. }
  split.
  { unfold exec. rewrite disconnectConnector_run. simpl.
    destruct (clientConnector self) eqn:Hconn; [reflexivity | exact Hconn]. }
  split.
  { unfold disconnectConnector. unfold_monad. destruct self. simpl.
    destruct clientConnector0; reflexivity. }
  split.
  { unfold exec at 2. rewrite Hagain. reflexivity. }
  unfold disconnect, TCPLayer_disconnect, disconnectConnector,
    TCPLayer_connectionLost, onDisconnection.
  unfold_monad. destruct self. simpl.
  destruct tcp0; simpl; destruct clientConnector0; simpl;
    destruct client0; reflexivity.
Qed.

(** ** The ServerData precondition of the channel methods *)

Lemma channel_methods_raise_without_serverData
  (self : MITMServer) (pdu : MCSChannelJoinRequestPDU.t)
  (userID channelID : Z) :
  serverData self = None ->
  onChannelJoinRequest pdu self = (Raise AttributeError, self) /\
  buildChannel userID channelID self = (Raise AttributeError, self).
Proof.
  intros Hnone. unfold onChannelJoinRequest, buildChannel. unfold_monad.
  rewrite Hnone. split; reflexivity.
Qed.

Lemma step_keeps_serverData_None (c : Call) (self : MITMServer) :
  successfulConnectResponse c = false ->
  serverData self = None ->
  serverData (step c self) = None.
Proof.
  intros Hc Hnone. destruct self. simpl in Hnone. subst.
  destruct c; simpl in *; unfold_methods; simpl;
    try rewrite Hc; simpl; split_cases; reflexivity.
Qed.

Lemma run_keeps_serverData_None (calls : list Call) :
  forall self : MITMServer,
    existsb successfulConnectResponse calls = false ->
    serverData self = None ->
    serverData (run calls self) = None.
Proof.
  induction calls as [| c calls IH]; intros self Hcalls Hnone.
  - exact Hnone.
  - simpl in Hcalls. apply orb_false_elim in Hcalls as [Hc Hrest].
    simpl. apply IH; [exact Hrest |].
    apply step_keeps_serverData_None; assumption.
Qed.

(** C10. [self.serverData] is [None] when the session is made and stays
    [None] through any sequence of calls that contains no Connect-Response
    with [result == 0]. In such a session both [onChannelJoinRequest] and
    [buildChannel] raise [AttributeError] at
    [self.serverData.network.mcsChannelID], for every channel, and leave the
    session as it was: no confirm is sent, no request is refused. *)
Theorem channel_methods_need_successful_connect_response :
  forall (targetHost : string) (targetPort : Z)
         (certificateFileName privateKeyFileName : string)
         (generatedKey : RSAKey.t) (calls : list Call)
         (pdu : MCSChannelJoinRequestPDU.t) (userID channelID : Z),
    existsb successfulConnectResponse calls = false ->
    let self :=
      run calls
        (MITMServer_init targetHost targetPort
           certificateFileName privateKeyFileName generatedKey) in
    serverData self = None /\
    onChannelJoinRequest pdu self = (Raise AttributeError, self) /\
    buildChannel userID channelID self = (Raise AttributeError, self) /\
    effects (exec (onChannelJoinRequest pdu) self) = effects self /\
    effects (exec (buildChannel userID channelID) self) = effects self.
Proof.
  intros targetHost0 targetPort0 certificateFileName0 privateKeyFileName0
    generatedKey calls pdu userID channelID Hcalls self.
  assert (Hnone : serverData self = None).
  { subst self. apply run_keeps_serverData_None; [exact Hcalls | reflexivity]. }
  destruct (channel_methods_raise_without_serverData
              self pdu userID channelID Hnone) as [Hjoin Hbuild].
  split; [exact Hnone |].
  split; [exact Hjoin |].
  split; [exact Hbuild |].
  unfold exec. rewrite Hjoin, Hbuild. split; reflexivity.
Qed.

(** * Further properties of the session *)

(** Case analysis that keeps the equations of the comparisons it splits. *)
Ltac split_cases_eq :=
  repeat match goal with
         | |- context [match ?x with _ => _ end] =>
             is_var x; destruct x; simpl in *
         | |- context [match ?f ?x with _ => _ end] =>
             is_var x; destruct (f x) eqn:?; simpl in *
         | |- context [match ?f (?g ?x) with _ => _ end] =>
             is_var x; destruct (f (g x)) eqn:?; simpl in *
         | |- context [?x =? ?y] =>
             let E := fresh "Heqb" in
             destruct (x =? y) eqn:E; simpl in *
         end.

Lemma run_invariant (P : MITMServer -> Prop) :
  (forall (c : Call) (self : MITMServer), P self -> P (step c self)) ->
  forall (calls : list Call) (self : MITMServer),
    P self -> P (run calls self).
Proof.
  intros Hstep calls.
  induction calls as [| c calls IH]; intros self Hself.
  - exact Hself.
  - simpl. apply IH, Hstep, Hself.
Qed.

Lemma occurrences_snoc (p : Effect -> bool) (trace : list Effect) (e : Effect) :
  occurrences p (trace ++ [e])
  = (occurrences p trace + (if p e then 1 else 0))%nat.
Proof.
  unfold occurrences. rewrite filter_app, length_app. simpl.
  destruct (p e); reflexivity.
Qed.

Lemma land_SSL (requested : Z) :
  Z.land requested NegotiationProtocols.SSL
  = if Z.testbit requested 0
    then NegotiationProtocols.SSL else NegotiationProtocols.NONE.
Proof.
  change NegotiationProtocols.SSL with (Z.ones 1).
  rewrite Z.land_ones by lia.
  change (2 ^ 1) with 2. rewrite <- Z.bit0_mod.
  destruct (Z.testbit requested 0); reflexivity.
Qed.

(** ** Negotiation *)

(** The request sent to the real server offers SSL or nothing: its
    [requestedProtocols] is SSL when bit 0 of the client's value is set and
    NONE otherwise, whatever other protocol flags the client set. *)
Theorem onConnectionRequest_offers_SSL_or_nothing :
  forall (pdu : X224ConnectionRequestPDU.t) (self : MITMServer)
         (original : RDPNegotiationRequestPDU.t) (requested : Z),
    RDPNegotiationRequestParser_parse (X224ConnectionRequestPDU.payload pdu)
      = Ok original ->
    RDPNegotiationRequestPDU.requestedProtocols original = Some requested ->
    exists (target : RDPNegotiationRequestPDU.t) (offered : Z),
      targetNegotiationPDU (exec (onConnectionRequest pdu) self)
        = Some target /\
      RDPNegotiationRequestPDU.requestedProtocols target = Some offered /\
      offered = (if Z.testbit requested 0
                 then NegotiationProtocols.SSL
                 else NegotiationProtocols.NONE) /\
      (forall i : Z, i <> 0 -> Z.testbit offered i = false).
Proof.
  intros pdu self original requested Hparse Hrequested.
  eexists. exists (Z.land requested NegotiationProtocols.SSL).
  unfold onConnectionRequest, connectClient. unfold_monad.
  rewrite Hparse. simpl. rewrite Hrequested.
  split; [reflexivity |]. split; [reflexivity |].
  split; [apply land_SSL |].
  intros i Hi. rewrite Z.land_spec.
  change NegotiationProtocols.SSL with (2 ^ 0).
  destruct (Z.ltb_spec i 0) as [Hneg | Hpos].
  - rewrite (Z.testbit_neg_r requested) by assumption. reflexivity.
  - rewrite Z.pow2_bits_eqb by lia.
    replace (0 =? i) with false by (symmetry; apply Z.eqb_neq; lia).
    apply andb_false_r.
Qed.

Lemma step_keeps_negotiationConsistent (c : Call) (self : MITMServer) :
  negotiationConsistent self -> negotiationConsistent (step c self).
Proof.
  unfold negotiationConsistent. intros Hself. destruct self. simpl in *.
  destruct c; simpl; unfold_methods; simpl; split_cases_eq;
    try solve [exact Hself | reflexivity | contradiction];
    unfold maskedToSSL;
    match goal with
    | Hrequested : RDPNegotiationRequestPDU.requestedProtocols _ = _ |- _ =>
        rewrite Hrequested
    end;
    reflexivity.
Qed.

(** At every point of a session's life the two negotiation requests are
    both absent or both present, and the request offered to the real server
    is the client's request masked to SSL: no method other than
    [onConnectionRequest] assigns either, and it assigns both. *)
Theorem negotiation_requests_stay_consistent :
  forall (targetHost : string) (targetPort : Z)
         (certificateFileName privateKeyFileName : string)
         (generatedKey : RSAKey.t) (calls : list Call),
    let self :=
      run calls
        (MITMServer_init targetHost targetPort
           certificateFileName privateKeyFileName generatedKey) in
    match originalNegotiationPDU self with
    | Some original =>
        targetNegotiationPDU self = Some (maskedToSSL original) /\
        outcome getNegotiationPDU self = Ok (Some (maskedToSSL original))
    | None =>
        targetNegotiationPDU self = None /\
        outcome getNegotiationPDU self = Ok None
    end.
Proof.
  intros targetHost0 targetPort0 certificateFileName0 privateKeyFileName0
    generatedKey calls self.
  assert (Hconsistent : negotiationConsistent self).
  { subst self. apply run_invariant.
    - intros c s. apply step_keeps_negotiationConsistent.
    - exact I. }
  unfold negotiationConsistent in Hconsistent.
  unfold outcome, getNegotiationPDU, bind, get, ret. simpl.
  destruct (originalNegotiationPDU self), (targetNegotiationPDU self);
    try contradiction; subst; split; reflexivity.
Qed.

(** ** The outbound connector *)



(** A Connection Request that arrives while the session already holds a
    connector opens one more outbound connection and replaces the connector
    held, without cancelling the one it replaces; the [disconnect()] that
    follows cancels one connector only. *)
Theorem onConnectionRequest_replaces_connector_without_cancelling :
  forall (pdu : X224ConnectionRequestPDU.t) (self : MITMServer)
         (original : RDPNegotiationRequestPDU.t) (held : Connector.t),
    RDPNegotiationRequestParser_parse (X224ConnectionRequestPDU.payload pdu)
      = Ok original ->
    clientConnector self = Some held ->
    let again := exec (onConnectionRequest pdu) self in
    let closed := exec disconnect again in
    effects again
      = effects self
        ++ [Reactor_connectTCP (targetHost self) (targetPort self)] /\
    clientConnector again
      = Some (Connector.make (targetHost self) (targetPort self)) /\
    occurrences cancelsConnector (effects again)
      = occurrences cancelsConnector (effects self) /\
    occurrences cancelsConnector (effects closed)
      = S (occurrences cancelsConnector (effects self)) /\
    clientConnector closed = None.
Proof.
  intros pdu self original held Hparse Hheld again closed.
  subst again closed.
  unfold onConnectionRequest, connectClient, disconnect, TCPLayer_disconnect,
    disconnectConnector.
  unfold_monad. rewrite Hparse. simpl.
  destruct self. simpl in *.
  destruct tcp0; simpl; unfold record_effect; simpl;
    rewrite ?occurrences_snoc; simpl;
    repeat split; try reflexivity; lia.
Qed.

(** ** What the session never changes *)

Lemma step_keeps_configuration (c : Call) (self : MITMServer) :
  rc4RSAKey (step c self) = rc4RSAKey self /\
  targetHost (step c self) = targetHost self /\
  targetPort (step c self) = targetPort self /\
  certificateFileName (step c self) = certificateFileName self /\
  privateKeyFileName (step c self) = privateKeyFileName self.
Proof.
  destruct self.
  destruct c; simpl; unfold_methods; simpl; split_cases;
    repeat split; reflexivity.
Qed.

Lemma run_keeps_rc4RSAKey (calls : list Call) (self : MITMServer) :
  rc4RSAKey (run calls self) = rc4RSAKey self.
Proof.
  apply (run_invariant (fun s => rc4RSAKey s = rc4RSAKey self)).
  - intros c s Hs. rewrite <- Hs. apply step_keeps_configuration.
  - reflexivity.
Qed.

(** No sequence of calls changes the RSA key generated for the session, the
    target address, or the names of the certificate and private-key files:
    the key placed in a certificate and the key used to decrypt a client
    random are the same key. *)
Theorem configuration_is_never_reassigned :
  forall (calls : list Call) (self : MITMServer),
    rc4RSAKey (run calls self) = rc4RSAKey self /\
    targetHost (run calls self) = targetHost self /\
    targetPort (run calls self) = targetPort self /\
    certificateFileName (run calls self) = certificateFileName self /\
    privateKeyFileName (run calls self) = privateKeyFileName self.
Proof.
  intros calls self.
  apply (run_invariant
           (fun s =>
              rc4RSAKey s = rc4RSAKey self /\
              targetHost s = targetHost self /\
              targetPort s = targetPort self /\
              certificateFileName s = certificateFileName self /\
              privateKeyFileName s = privateKeyFileName self)).
  - intros c s [Hkey [Hhost [Hport [Hcert Hprivate]]]].
    destruct (step_keeps_configuration c s)
      as [Hkey' [Hhost' [Hport' [Hcert' Hprivate']]]].
    repeat split; congruence.
  - repeat split; reflexivity.
Qed.

(** ** TLS *)

Lemma step_keeps_useTLS_in_step_with_startTLS (c : Call) (self : MITMServer) :
  useTLS self = existsb startsTLS (effects self) ->
  useTLS (step c self) = existsb startsTLS (effects (step c self)).
Proof.
  intros Hself. destruct self. simpl in *.
  destruct c; simpl; unfold_methods; simpl; split_cases;
    unfold record_effect; simpl;
    rewrite ?existsb_app; simpl;
    rewrite <- ?Hself; rewrite ?orb_false_r, ?orb_true_r; reflexivity.
Qed.

(** At every point of a session's life [useTLS] is true exactly when
    [startTLS] has been called on the TCP layer: the security layer and the
    fast-path parser that [buildChannel] chooses from [useTLS] match the
    transport. *)
Theorem useTLS_iff_TLS_started :
  forall (targetHost : string) (targetPort : Z)
         (certificateFileName privateKeyFileName : string)
         (generatedKey : RSAKey.t) (calls : list Call),
    let self :=
      run calls
        (MITMServer_init targetHost targetPort
           certificateFileName privateKeyFileName generatedKey) in
    useTLS self = true <->
    exists context : ServerTLSContext.t,
      In (TCP_startTLS context) (effects self).
Proof.
  intros targetHost0 targetPort0 certificateFileName0 privateKeyFileName0
    generatedKey calls self.
  assert (Hinv : useTLS self = existsb startsTLS (effects self)).
  { subst self.
    apply (run_invariant
             (fun s => useTLS s = existsb startsTLS (effects s))).
    - intros c s. apply step_keeps_useTLS_in_step_with_startTLS.
    - reflexivity. }
  rewrite Hinv, existsb_exists. split.
  - intros [e [Hin He]]. destruct e; try discriminate He.
    exists context. exact Hin.
  - intros [context Hin]. exists (TCP_startTLS context).
    split; [exact Hin | reflexivity].
Qed.

(** ** FIPS *)

Lemma coerced_method_is_not_FIPS (method : Z) :
  ((if negb (method =? EncryptionMethod.ENCRYPTION_FIPS)
    then method else EncryptionMethod.ENCRYPTION_128BIT)
   =? EncryptionMethod.ENCRYPTION_FIPS) = false.
Proof.
  destruct (method =? EncryptionMethod.ENCRYPTION_FIPS) eqn:Hmethod; simpl.
  - reflexivity.
  - exact Hmethod.
Qed.

Lemma coerced_level_is_not_FIPS (level : Z) :
  ((if negb (level =? EncryptionLevel.ENCRYPTION_LEVEL_FIPS)
    then level else EncryptionLevel.ENCRYPTION_LEVEL_HIGH)
   =? EncryptionLevel.ENCRYPTION_LEVEL_FIPS) = false.
Proof.
  destruct (level =? EncryptionLevel.ENCRYPTION_LEVEL_FIPS) eqn:Hlevel; simpl.
  - reflexivity.
  - exact Hlevel.
Qed.

Lemma step_keeps_withoutFIPS (c : Call) (self : MITMServer) :
  withoutFIPS self = true -> withoutFIPS (step c self) = true.
Proof.
  unfold withoutFIPS. intros Hself. destruct self. simpl in *.
  destruct c; simpl; unfold_methods; simpl;
    try exact Hself.
  all: rewrite ?coerced_method_is_not_FIPS, ?coerced_level_is_not_FIPS;
    simpl; try exact Hself.
  all: split_cases_eq; simpl in *;
    rewrite ?coerced_method_is_not_FIPS, ?coerced_level_is_not_FIPS in *;
    repeat match goal with
           | H : _ && _ = true |- _ => apply andb_prop in H; destruct H
           end;
    repeat match goal with
           | H : negb _ = true |- _ => apply negb_true_iff in H
           end;
    repeat match goal with
           | H : ?x = _ |- context [?x] => rewrite H
           end;
    simpl; try reflexivity; try congruence.
Qed.

(** No session ever keeps FIPS for its I/O channel: in every reachable
    state the ServerData kept has neither the FIPS encryption method nor
    the FIPS encryption level, and neither the RC4 security layer nor the
    fast-path parser built by [buildChannel] is set up for FIPS. *)
Theorem session_never_keeps_FIPS :
  forall (targetHost : string) (targetPort : Z)
         (certificateFileName privateKeyFileName : string)
         (generatedKey : RSAKey.t) (calls : list Call),
    let self :=
      run calls
        (MITMServer_init targetHost targetPort
           certificateFileName privateKeyFileName generatedKey) in
    (forall data : RDPServerDataPDU.t,
        serverData self = Some data ->
        ServerSecurityData.encryptionMethod (RDPServerDataPDU.security data)
          <> EncryptionMethod.ENCRYPTION_FIPS /\
        ServerSecurityData.encryptionLevel (RDPServerDataPDU.security data)
          <> EncryptionLevel.ENCRYPTION_LEVEL_FIPS) /\
    (forall (method : Z) (crypter : RC4CrypterProxy.t)
            (expected : option bool),
        securityLayer self
          = Some (SecurityLayer.make
                    (SecurityLayer.NonTLSSecurityLayer method crypter)
                    expected) ->
        method <> EncryptionMethod.ENCRYPTION_FIPS) /\
    (forall parser : FastPathParser.t,
        fastPathParser self = Some parser ->
        FastPathParser.encryptionMethod parser
          <> EncryptionMethod.ENCRYPTION_FIPS).
Proof.
  intros targetHost0 targetPort0 certificateFileName0 privateKeyFileName0
    generatedKey calls self.
  assert (Hinv : withoutFIPS self = true).
  { subst self.
    apply (run_invariant (fun s => withoutFIPS s = true)).
    - intros c s. apply step_keeps_withoutFIPS.
    - reflexivity. }
  unfold withoutFIPS in Hinv.
  apply andb_prop in Hinv as [Hinv Hparser].
  apply andb_prop in Hinv as [Hdata Hlayer].
  split; [| split].
  - intros data Hsome. rewrite Hsome in Hdata.
    apply andb_prop in Hdata as [Hmethod Hlevel].
    apply negb_true_iff in Hmethod, Hlevel.
    split; apply Z.eqb_neq; assumption.
  - intros method crypter expected Hsome. rewrite Hsome in Hlayer.
    simpl in Hlayer. apply negb_true_iff in Hlayer.
    apply Z.eqb_neq. exact Hlayer.
  - intros parser Hsome. rewrite Hsome in Hparser.
    apply negb_true_iff in Hparser. apply Z.eqb_neq. exact Hparser.
Qed.

(** ** Building the I/O channel *)

(** Finds a call among those appended to a trace. *)
Ltac in_new_trace :=
  unfold record_effect; simpl; repeat rewrite <- app_assoc; simpl;
  apply in_or_app; right; simpl;
  repeat (first [left; reflexivity | right]).

(** [buildChannel] for a channel other than the I/O channel of the
    ServerData returns [None] and touches nothing: no layer is created and
    no collaborator is called. *)
Theorem buildChannel_refuses_other_channels :
  forall (self : MITMServer) (data : RDPServerDataPDU.t)
         (userID channelID : Z),
    serverData self = Some data ->
    channelID
      <> ServerNetworkData.mcsChannelID (RDPServerDataPDU.network data) ->
    buildChannel userID channelID self = (Ok None, self).
Proof.
  intros self data userID channelID Hdata Hother.
  unfold buildChannel. unfold_monad. rewrite Hdata. simpl.
  apply Z.eqb_neq in Hother. rewrite Hother. reflexivity.
Qed.

(** [buildChannel] for the I/O channel, with the client half present,
    returns the channel for that user and channel ID. Under TLS the
    security layer is the TLS pass-through and expects a security header;
    otherwise it is the RC4 layer for the encryption method of the
    ServerData kept, with [securityHeaderExpected] not assigned. The
    fast-path parser is made for the same TLS flag and method, in server
    mode, and it is the parser installed on the TPKT layer. *)
Theorem buildChannel_builds_io_channel :
  forall (self : MITMServer) (data : RDPServerDataPDU.t)
         (mitmClient : MITMClient.t) (userID : Z),
    serverData self = Some data ->
    client self = Some mitmClient ->
    let channelID :=
      ServerNetworkData.mcsChannelID (RDPServerDataPDU.network data) in
    let method :=
      ServerSecurityData.encryptionMethod (RDPServerDataPDU.security data) in
    let parser :=
      FastPathParser.make (useTLS self) method RC4CrypterProxy.make SERVER in
    let after := exec (buildChannel userID channelID) self in
    outcome (buildChannel userID channelID) self
      = Ok (Some (MCSServerChannel.make userID channelID)) /\
    securityLayer after
      = Some (if useTLS self
              then SecurityLayer.make SecurityLayer.TLSSecurityLayer
                                      (Some true)
              else SecurityLayer.make
                     (SecurityLayer.NonTLSSecurityLayer
                        method RC4CrypterProxy.make)
                     None) /\
    fastPathParser after = Some parser /\
    licensingLayer after = Some RDPLicensingLayer.make /\
    In (Wire (TPKT_setFastPathParser parser)) (effects after) /\
    In (Wire (SlowPathObserver_setPeer channelID)) (effects after) /\
    In (SecuritySettings_setObserver RC4CrypterProxy.make) (effects after) /\
    serverData after = serverData self /\
    useTLS after = useTLS self.
Proof.
  intros self data mitmClient userID Hdata Hclient
    channelID method parser after.
  subst channelID method parser after.
  destruct self. simpl in *. subst.
  unfold buildChannel. unfold_monad. simpl.
  rewrite Z.eqb_refl. simpl.
  destruct useTLS0; simpl;
    (split; [reflexivity |]); (split; [reflexivity |]);
    (split; [reflexivity |]); (split; [reflexivity |]);
    (split; [in_new_trace |]); (split; [in_new_trace |]);
    (split; [in_new_trace |]);
    split; reflexivity.
Qed.

(** Without a client half, [buildChannel] for the I/O channel raises
    [AttributeError], but only after the security layer, the fast-path
    parser and the licensing layer have been assigned: they stay assigned,
    and under TLS the security layer is left without
    [securityHeaderExpected]. The calls made before the raise are exactly
    those up to [createObserver]: no observer is paired with a peer and no
    input handler is registered. *)
Theorem buildChannel_without_client_half_is_partial :
  forall (self : MITMServer) (data : RDPServerDataPDU.t) (userID : Z),
    serverData self = Some data ->
    client self = None ->
    let channelID :=
      ServerNetworkData.mcsChannelID (RDPServerDataPDU.network data) in
    let method :=
      ServerSecurityData.encryptionMethod (RDPServerDataPDU.security data) in
    let after := exec (buildChannel userID channelID) self in
    outcome (buildChannel userID channelID) self = Raise AttributeError /\
    securityLayer after
      = Some (SecurityLayer.make
                (if useTLS self
                 then SecurityLayer.TLSSecurityLayer
                 else SecurityLayer.NonTLSSecurityLayer
                        method RC4CrypterProxy.make)
                None) /\
    fastPathParser after
      = Some (FastPathParser.make
                (useTLS self) method RC4CrypterProxy.make SERVER) /\
    licensingLayer after = Some RDPLicensingLayer.make /\
    ~ In (Wire (SlowPathObserver_setPeer channelID))
         (skipn (List.length (effects self)) (effects after)) /\
    effects after
      = effects self
        ++ [SecuritySettings_setObserver RC4CrypterProxy.make;
            Wire (Channel_setNext
                    (SecurityLayer.make
                       (if useTLS self
                        then SecurityLayer.TLSSecurityLayer
                        else SecurityLayer.NonTLSSecurityLayer
                               method RC4CrypterProxy.make)
                       None));
            Wire (SecurityLayer_setLicensingLayer RDPLicensingLayer.make);
            Wire SecurityLayer_setNext_io;
            Wire (TPKT_setFastPathParser
                    (FastPathParser.make
                       (useTLS self) method RC4CrypterProxy.make SERVER));
            Wire (IO_setObserver_slowPath SERVER);
            Wire (TPKT_setObserver_fastPath SERVER);
            Wire SecurityLayer_createObserver] /\
    (forall peer : Z,
        ~ In (Wire (SlowPathObserver_setPeer peer))
             (skipn (List.length (effects self)) (effects after))) /\
    ~ In (Wire FastPathObserver_setPeer)
         (skipn (List.length (effects self)) (effects after)) /\
    ~ In (Wire SlowPathObserver_setDataHandler_INPUT)
         (skipn (List.length (effects self)) (effects after)).
Proof.
  intros self data userID Hdata Hclient channelID method after.
  subst channelID method after.
  unfold buildChannel. unfold_monad. rewrite Hdata. simpl.
  rewrite Z.eqb_refl. simpl. rewrite Hclient. simpl.
  destruct self. simpl in *.
  destruct useTLS0; simpl;
    (split; [reflexivity |]); (split; [reflexivity |]);
    (split; [reflexivity |]); (split; [reflexivity |]);
    unfold record_effect; simpl;
    repeat rewrite <- app_assoc; simpl;
    rewrite skipn_app, skipn_all, Nat.sub_diag; simpl;
    (split; [intuition discriminate |]);
    (split; [reflexivity |]);
    (split; [intros peer; intuition discriminate |]);
    split; intuition discriminate.
Qed.

(** After the I/O channel has been built, [onLicensingPDU] sends the PDU
    through the licensing layer and leaves the security layer, of the same
    variant, not expecting a security header, under TLS as well as
    without. *)
Theorem onLicensingPDU_after_buildChannel :
  forall (self : MITMServer) (data : RDPServerDataPDU.t)
         (mitmClient : MITMClient.t) (userID : Z) (pdu : bytes),
    serverData self = Some data ->
    client self = Some mitmClient ->
    let channelID :=
      ServerNetworkData.mcsChannelID (RDPServerDataPDU.network data) in
    let method :=
      ServerSecurityData.encryptionMethod (RDPServerDataPDU.security data) in
    let built := exec (buildChannel userID channelID) self in
    let after := exec (onLicensingPDU pdu) built in
    outcome (onLicensingPDU pdu) built = Ok tt /\
    securityLayer after
      = Some (SecurityLayer.make
                (if useTLS self
                 then SecurityLayer.TLSSecurityLayer
                 else SecurityLayer.NonTLSSecurityLayer
                        method RC4CrypterProxy.make)
                (Some false)) /\
    effects after = effects built ++ [Licensing_sendPDU pdu].
Proof.
  intros self data mitmClient userID pdu Hdata Hclient
    channelID method built after.
  subst channelID method built after.
  unfold buildChannel, onLicensingPDU. unfold_monad. rewrite Hdata. simpl.
  rewrite Z.eqb_refl. simpl. rewrite Hclient. simpl.
  destruct self. simpl in *.
  destruct useTLS0; simpl; repeat split; reflexivity.
Qed.

(** Before any channel has been built there is no security layer:
    [onLicensingPDU] raises [AttributeError] and sends nothing. That is the
    case in every session that has not yet called [buildChannel]. *)
Theorem onLicensingPDU_before_buildChannel :
  forall (targetHost : string) (targetPort : Z)
         (certificateFileName privateKeyFileName : string)
         (generatedKey : RSAKey.t) (calls : list Call) (pdu : bytes),
    existsb (fun c => match c with
                      | Call_buildChannel _ _ => true
                      | _ => false
                      end) calls = false ->
    let self :=
      run calls
        (MITMServer_init targetHost targetPort
           certificateFileName privateKeyFileName generatedKey) in
    onLicensingPDU pdu self = (Raise AttributeError, self).
Proof.
  intros targetHost0 targetPort0 certificateFileName0 privateKeyFileName0
    generatedKey calls pdu Hcalls self.
  assert (Hnone : securityLayer self = None).
  { subst self.
    generalize (MITMServer_init targetHost0 targetPort0 certificateFileName0
                  privateKeyFileName0 generatedKey),
      (eq_refl : securityLayer
                   (MITMServer_init targetHost0 targetPort0
                      certificateFileName0 privateKeyFileName0 generatedKey)
                 = None).
    induction calls as [| c calls IH]; intros s Hs.
    - exact Hs.
    - simpl in Hcalls. apply orb_false_elim in Hcalls as [Hc Hrest].
      simpl. apply IH; [exact Hrest |].
      destruct s. simpl in Hs. subst.
      destruct c; try discriminate Hc; simpl; unfold_methods; simpl;
        split_cases; reflexivity. }
  unfold onLicensingPDU. unfold_monad. rewrite Hnone. reflexivity.
Qed.

(** ** Connect-Response: failure modes and the caller's object *)

(** A Connect-Response with [result == 0] that arrives before any
    Connection Request raises [AttributeError] before anything is
    assigned: the session and the caller's ServerData are as they were and
    nothing is sent. *)
Theorem onConnectResponse_without_original_request :
  forall (pdu : MCSConnectResponsePDU.t) (self : MITMServer)
         (data : RDPServerDataPDU.t),
    MCSConnectResponsePDU.result pdu = 0 ->
    originalNegotiationPDU self = None ->
    onConnectResponse pdu (self, data) = (Raise AttributeError, (self, data)).
Proof.
  intros pdu self data Hresult Hnone.
  unfold onConnectResponse. rewrite Hresult. simpl.
  unfold_monad. simpl. rewrite Hnone. reflexivity.
Qed.

(** A Connect-Response with [result == 0] that arrives while the client
    half is missing, or has no conference-create response yet, raises
    [AttributeError] only at the end: the rewritten ServerData is already
    kept in [self.serverData] and has been given to the security settings,
    but no Connect-Response is sent to the client. *)
Theorem onConnectResponse_without_conference_response_is_partial :
  forall (pdu : MCSConnectResponsePDU.t) (self : MITMServer)
         (data : RDPServerDataPDU.t)
         (original : RDPNegotiationRequestPDU.t),
    MCSConnectResponsePDU.result pdu = 0 ->
    originalNegotiationPDU self = Some original ->
    match client self with
    | Some mitmClient => MITMClient.conferenceCreateResponse mitmClient = None
    | None => True
    end ->
    let after := fst (exec (onConnectResponse pdu) (self, data)) in
    outcome (onConnectResponse pdu) (self, data) = Raise AttributeError /\
    exists kept : RDPServerDataPDU.t,
      serverData after = Some kept /\
      ServerCoreData.clientRequestedProtocols (RDPServerDataPDU.core kept)
        = RDPNegotiationRequestPDU.requestedProtocols original /\
      effects after
        = effects self
          ++ [SecuritySettings_serverSecurityReceived
                (RDPServerDataPDU.security kept)].
Proof.
  intros pdu self data original Hresult Horiginal Hclient after.
  subst after.
  unfold onConnectResponse. rewrite Hresult. simpl.
  unfold_monad. simpl. rewrite Horiginal. simpl.
  destruct (client self) as [mitmClient |]; simpl.
  - rewrite Hclient. simpl.
    split; [reflexivity |]. eexists. repeat split; reflexivity.
  - split; [reflexivity |]. eexists. repeat split; reflexivity.
Qed.

(** A Connect-Response with [result == 0] changes the ServerData object of
    the caller: its [core.clientRequestedProtocols] becomes the original
    value and its [network.channels] becomes empty, while its security
    block stays as the real server sent it (method, level and certificate
    are replaced in the copy the session keeps, not in the caller's). The
    channel ID, the server random and the rest of the core block are the
    same in both. *)
Theorem onConnectResponse_mutates_the_callers_ServerData :
  forall (pdu : MCSConnectResponsePDU.t) (self : MITMServer)
         (data : RDPServerDataPDU.t)
         (original : RDPNegotiationRequestPDU.t),
    MCSConnectResponsePDU.result pdu = 0 ->
    originalNegotiationPDU self = Some original ->
    let store := exec (onConnectResponse pdu) (self, data) in
    exists kept : RDPServerDataPDU.t,
      serverData (fst store) = Some kept /\
      RDPServerDataPDU.core (snd store) = RDPServerDataPDU.core kept /\
      RDPServerDataPDU.network (snd store) = RDPServerDataPDU.network kept /\
      RDPServerDataPDU.security (snd store) = RDPServerDataPDU.security data /\
      ServerCoreData.clientRequestedProtocols
        (RDPServerDataPDU.core (snd store))
        = RDPNegotiationRequestPDU.requestedProtocols original /\
      ServerNetworkData.channels (RDPServerDataPDU.network (snd store)) = [] /\
      ServerNetworkData.mcsChannelID (RDPServerDataPDU.network kept)
        = ServerNetworkData.mcsChannelID (RDPServerDataPDU.network data) /\
      ServerSecurityData.serverRandom (RDPServerDataPDU.security kept)
        = ServerSecurityData.serverRandom (RDPServerDataPDU.security data) /\
      ServerCoreData.version (RDPServerDataPDU.core kept)
        = ServerCoreData.version (RDPServerDataPDU.core data) /\
      ServerCoreData.earlyCapabilityFlags (RDPServerDataPDU.core kept)
        = ServerCoreData.earlyCapabilityFlags (RDPServerDataPDU.core data).
Proof.
  intros pdu self data original Hresult Horiginal store.
  subst store.
  unfold onConnectResponse. rewrite Hresult. simpl.
  unfold_monad. simpl. rewrite Horiginal. simpl.
  destruct (client self) as [mitmClient |]; simpl;
    [destruct (MITMClient.conferenceCreateResponse mitmClient); simpl |];
    eexists; repeat split; reflexivity.
Qed.

(** ** From the Connect-Response to the channel join and the security
       exchange *)

(** After a Connect-Response has been rewritten, the channel the session
    treats as the I/O channel is the one the real server announced: a join
    of that channel is handed to the client half, and [buildChannel] for it
    yields a channel. *)
Theorem io_channel_is_the_real_servers :
  forall (pdu : MCSConnectResponsePDU.t) (self : MITMServer)
         (data : RDPServerDataPDU.t)
         (original : RDPNegotiationRequestPDU.t)
         (mitmClient : MITMClient.t) (gcc : GCCConferenceCreateResponsePDU.t)
         (initiator : Z),
    MCSConnectResponsePDU.result pdu = 0 ->
    originalNegotiationPDU self = Some original ->
    client self = Some mitmClient ->
    MITMClient.conferenceCreateResponse mitmClient = Some gcc ->
    let after := fst (exec (onConnectResponse pdu) (self, data)) in
    let io :=
      ServerNetworkData.mcsChannelID (RDPServerDataPDU.network data) in
    let join := MCSChannelJoinRequestPDU.make initiator io in
    onChannelJoinRequest join after
      = (Ok tt, record_effect (Client_onChannelJoinRequest join) after) /\
    outcome (buildChannel initiator io) after
      = Ok (Some (MCSServerChannel.make initiator io)).
Proof.
  intros pdu self data original mitmClient gcc initiator
    Hresult Horiginal Hclient Hgcc after io join.
  subst after io join.
  unfold onConnectResponse. rewrite Hresult. simpl.
  unfold onChannelJoinRequest, buildChannel.
  unfold_monad. simpl. rewrite Horiginal. simpl.
  rewrite Hclient. simpl. rewrite Hgcc. simpl.
  rewrite Z.eqb_refl. simpl. rewrite Hclient. simpl.
  split; [reflexivity |].
  destruct (useTLS self); reflexivity.
Qed.

(** The key that decrypts is the key that was certified: when the real
    server sent a certificate, the certificate kept and sent to the client
    carries a key such that, whatever calls come in between, a client
    random encrypted for that key (reversed, encrypted, reversed) and
    decryptable by it reaches [SecuritySettings.setClientRandom] as the
    plaintext. *)
Theorem certified_key_decrypts_the_client_random :
  forall (pdu : MCSConnectResponsePDU.t) (self : MITMServer)
         (data : RDPServerDataPDU.t)
         (original : RDPNegotiationRequestPDU.t)
         (mitmClient : MITMClient.t) (gcc : GCCConferenceCreateResponsePDU.t)
         (received : ProprietaryCertificate.t) (calls : list Call),
    MCSConnectResponsePDU.result pdu = 0 ->
    originalNegotiationPDU self = Some original ->
    client self = Some mitmClient ->
    MITMClient.conferenceCreateResponse mitmClient = Some gcc ->
    ServerSecurityData.serverCertificate (RDPServerDataPDU.security data)
      = Some received ->
    let after := fst (exec (onConnectResponse pdu) (self, data)) in
    let later := run calls after in
    exists certified : ProprietaryCertificate.t,
      keptCertificate after = Some certified /\
      forall (encrypt : RSAKey.t -> bytes -> bytes)
             (exchange : RDPSecurityExchangePDU.t) (plaintext : bytes),
        let key := ProprietaryCertificate.publicKey certified in
        RDPSecurityExchangePDU.clientRandom exchange
          = rev (encrypt key (rev plaintext)) ->
        RSA_decrypt key (encrypt key (rev plaintext)) = rev plaintext ->
        onSecurityExchangeReceived exchange later
          = (Ok tt,
             record_effect (SecuritySettings_setClientRandom plaintext)
                           later).
Proof.
  intros pdu self data original mitmClient gcc received calls
    Hresult Horiginal Hclient Hgcc Hcert after later.
  assert (Hkey : rc4RSAKey later = rc4RSAKey self).
  { subst later.
    rewrite run_keeps_rc4RSAKey.
    subst after. unfold onConnectResponse. rewrite Hresult. simpl.
    unfold_monad. simpl. rewrite Horiginal. simpl.
    rewrite Hclient. simpl. rewrite Hgcc. reflexivity. }
  eexists. split.
  - subst after. unfold keptCertificate, onConnectResponse.
    rewrite Hresult. simpl.
    unfold_monad. simpl. rewrite Horiginal. simpl.
    rewrite Hclient. simpl. rewrite Hgcc. simpl.
    rewrite Hcert. reflexivity.
  - simpl. intros encrypt exchange plaintext Hfield Hinverse.
    rewrite onSecurityExchangeReceived_run, Hkey, Hfield, rev_involutive,
      Hinverse, rev_involutive.
    reflexivity.
Qed.

(** ** Connect-Initial: the value forwarded *)

Lemma clear_FIPS_value (flags : Z) :
  Z.land flags (Z.lnot EncryptionMethod.ENCRYPTION_FIPS)
  = if Z.testbit flags 4
    then flags - EncryptionMethod.ENCRYPTION_FIPS else flags.
Proof.
  destruct (Z.testbit flags 4) eqn:Hbit.
  - rewrite <- Z.ldiff_land. symmetry. apply Z.sub_nocarry_ldiff.
    apply Z.bits_inj'. intros i _.
    rewrite Z.ldiff_spec, FIPS_bit, Z.bits_0.
    destruct (Z.eqb_spec i 4) as [Hi | Hi]; [| reflexivity].
    subst i. rewrite Hbit. reflexivity.
  - apply Z.bits_inj'. intros i _. rewrite clear_FIPS_bit.
    destruct (Z.eqb_spec i 4) as [Hi | Hi].
    + subst i. rewrite Hbit. reflexivity.
    + apply andb_true_r.
Qed.

(** The encryption methods forwarded to the real server are the client's
    own when the client did not offer FIPS, and the client's value minus
    0x10 when it did; clearing is idempotent, so a value that went through
    once goes through unchanged. *)
Theorem onConnectInitial_forwards_methods_less_FIPS :
  forall (pdu : MCSConnectInitialPDU.t) (self : MITMServer)
         (gcc : GCCConferenceCreateRequestPDU.t)
         (parsed : RDPClientDataPDU.t) (mitmClient : MITMClient.t),
    GCCParser_parse (MCSConnectInitialPDU.payload pdu) = Ok gcc ->
    RDPClientConnectionParser_parse (GCCConferenceCreateRequestPDU.payload gcc)
      = Ok parsed ->
    client self = Some mitmClient ->
    exists forwarded : RDPClientDataPDU.t,
      effects (exec (onConnectInitial pdu) self)
        = effects self ++ [Client_onConnectInitial gcc forwarded] /\
      let before := RDPClientDataPDU.securityData parsed in
      let after := RDPClientDataPDU.securityData forwarded in
      ClientSecurityData.encryptionMethods after
        = (if Z.testbit (ClientSecurityData.encryptionMethods before) 4
           then ClientSecurityData.encryptionMethods before
                - EncryptionMethod.ENCRYPTION_FIPS
           else ClientSecurityData.encryptionMethods before) /\
      ClientSecurityData.extEncryptionMethods after
        = (if Z.testbit (ClientSecurityData.extEncryptionMethods before) 4
           then ClientSecurityData.extEncryptionMethods before
                - EncryptionMethod.ENCRYPTION_FIPS
           else ClientSecurityData.extEncryptionMethods before) /\
      Z.land (ClientSecurityData.encryptionMethods after)
             (Z.lnot EncryptionMethod.ENCRYPTION_FIPS)
        = ClientSecurityData.encryptionMethods after /\
      Z.land (ClientSecurityData.extEncryptionMethods after)
             (Z.lnot EncryptionMethod.ENCRYPTION_FIPS)
        = ClientSecurityData.extEncryptionMethods after.
Proof.
  intros pdu self gcc parsed mitmClient Hgcc Hparsed Hclient.
  eexists. split.
  - unfold onConnectInitial. unfold_monad.
    rewrite Hgcc, Hparsed, Hclient. reflexivity.
  - simpl.
    assert (Hidem : forall flags : Z,
               Z.land (Z.land flags (Z.lnot EncryptionMethod.ENCRYPTION_FIPS))
                      (Z.lnot EncryptionMethod.ENCRYPTION_FIPS)
               = Z.land flags (Z.lnot EncryptionMethod.ENCRYPTION_FIPS)).
    { intros flags. rewrite <- Z.land_assoc, Z.land_diag. reflexivity. }
    split; [apply clear_FIPS_value |].
    split; [apply clear_FIPS_value |].
    split; apply Hidem.
Qed.

(** ** Failures that leave no trace *)

(** When [onConnectionRequest], [onConnectionConfirm], [onConnectInitial],
    [onAttachUserRequest] or [onChannelJoinRequest] raises (a parser
    rejected the payload, or an attribute of [None] was read), the session
    is exactly as it was before the call: nothing has been assigned and no
    collaborator has been called. *)
Theorem negotiation_methods_fail_without_trace :
  forall (self after : MITMServer) (e : Exn),
    (forall pdu : X224ConnectionRequestPDU.t,
        onConnectionRequest pdu self = (Raise e, after) -> after = self) /\
    (onConnectionConfirm self = (Raise e, after) -> after = self) /\
    (forall pdu : MCSConnectInitialPDU.t,
        onConnectInitial pdu self = (Raise e, after) -> after = self) /\
    (onAttachUserRequest self = (Raise e, after) -> after = self) /\
    (forall pdu : MCSChannelJoinRequestPDU.t,
        onChannelJoinRequest pdu self = (Raise e, after) -> after = self).
Proof.
  intros self after e. destruct self.
  split; [intros pdu | split; [| split; [intros pdu | split;
    [| intros pdu]]]];
    unfold_methods; simpl; split_cases; intros Hrun;
    inversion Hrun; reflexivity.
Qed.

(** ** Client info *)

(** [onClientInfoReceived] records the Client Info PDU, credentials
    included, before it forwards it: with a client half the record is
    followed by the forward of the same PDU; without one the method raises
    [AttributeError] and the record has been made all the same. *)
Theorem onClientInfoReceived_records_before_forwarding :
  forall (pdu : RDPClientInfoPDU.t) (self : MITMServer),
    let after := exec (onClientInfoReceived pdu) self in
    effects after
      = effects self
        ++ Recorder_record (Recorded_ClientInfo pdu) CLIENT_INFO
           :: match client self with
              | Some _ => [Client_onClientInfoReceived pdu]
              | None => []
              end /\
    outcome (onClientInfoReceived pdu) self
      = match client self with
        | Some _ => Ok tt
        | None => Raise AttributeError
        end.
Proof.
  intros pdu self after. subst after.
  unfold onClientInfoReceived. unfold_monad. destruct self. simpl.
  destruct client0; simpl; rewrite ?app_one_assoc; split; reflexivity.
Qed.

(** ** The end of the connection *)

(** [onDisconnection] never raises and tears down in a fixed order: the
    [CONNECTION_CLOSE] marker is recorded first, then the client half, if
    there is one, is disconnected, then the outbound connector, if one is
    held, is cancelled; afterwards no connector is held. *)
Theorem onDisconnection_cascade_order :
  forall (reason : string) (self : MITMServer),
    let after := exec (onDisconnection reason) self in
    outcome (onDisconnection reason) self = Ok tt /\
    effects after
      = effects self
        ++ [Recorder_record (Recorded_FastPath (RDPFastPathPDU.make 0 []))
                            CONNECTION_CLOSE]
        ++ match client self with
           | Some _ => [Client_disconnect]
           | None => []
           end
        ++ match clientConnector self with
           | Some connector => [Connector_disconnect connector]
           | None => []
           end /\
    clientConnector after = None /\
    client after = client self.
Proof.
  intros reason self after. subst after.
  unfold onDisconnection, disconnectConnector. unfold_monad.
  destruct self. simpl.
  destruct client0; simpl; destruct clientConnector0; simpl;
    unfold record_effect; simpl; repeat rewrite <- app_assoc; simpl;
    repeat split; reflexivity.
Qed.

End Properties.

(** * The theorems at concrete sessions *)

Lemma onConnectionRequest_masks_to_SSL_witness :
  RDPNegotiationRequestParser_parse (Collaborators := Sample.collaborators)
    (X224ConnectionRequestPDU.payload Sample.connectionRequest)
  = Ok (RDPNegotiationRequestPDU.make
          (Some [Byte.x61; Byte.x62]) (Some 0) (Some 3) None None None) /\
  exists target : RDPNegotiationRequestPDU.t,
    targetNegotiationPDU
      (exec (onConnectionRequest (collaborators := Sample.collaborators)
               Sample.connectionRequest)
            Sample.session)
    = Some target /\
    RDPNegotiationRequestPDU.requestedProtocols target = Some 1 /\
    RDPNegotiationRequestPDU.cookie target = Some [Byte.x61; Byte.x62].
Proof.
  split; [reflexivity |].
  destruct (onConnectionRequest_masks_to_SSL
              (collaborators := Sample.collaborators)
              Sample.connectionRequest Sample.session _ eq_refl)
    as [target [_ [_ [Htarget [_ [Hprotocols [Hcookie _]]]]]]].
  exists target. split; [exact Htarget |].
  split; [exact Hprotocols | exact Hcookie].
Defined.

Lemma onConnectionConfirm_advertises_TLS_iff_requested_witness :
  originalNegotiationPDU Sample.requested
  = Some (RDPNegotiationRequestPDU.make
            (Some [Byte.x61; Byte.x62]) (Some 0) (Some 3) None None None) /\
  effects (exec (onConnectionConfirm (collaborators := Sample.collaborators))
                Sample.requested)
  = [Reactor_connectTCP "192.0.2.10" 3389;
     X224_sendConnectionConfirm [Byte.x00; Byte.x01] 0x1234;
     TCP_startTLS (ServerTLSContext.make "key.pem" "cert.pem")] /\
  useTLS (exec (onConnectionConfirm (collaborators := Sample.collaborators))
               Sample.requested)
  = true.
Proof.
  split; [reflexivity |].
  destruct (onConnectionConfirm_advertises_TLS_iff_requested
              (collaborators := Sample.collaborators)
              Sample.requested _ eq_refl)
    as [_ [Heffects [_ [_ [_ [HuseTLS _]]]]]].
  split; [exact Heffects | exact HuseTLS].
Defined.

Lemma onConnectInitial_clears_FIPS_witness :
  GCCParser_parse (Collaborators := Sample.collaborators)
    (MCSConnectInitialPDU.payload Sample.connectInitial)
  = Ok (GCCConferenceCreateRequestPDU.make [] [Byte.x12; Byte.x12]) /\
  RDPClientConnectionParser_parse (Collaborators := Sample.collaborators)
    [Byte.x12; Byte.x12]
  = Ok (RDPClientDataPDU.make [] (ClientSecurityData.make 18 18) [] []) /\
  client Sample.requested = Some (MITMClient.make None) /\
  exists forwarded : RDPClientDataPDU.t,
    onConnectInitial (collaborators := Sample.collaborators)
      Sample.connectInitial Sample.requested
    = (Ok true,
       record_effect
         (Client_onConnectInitial
            (GCCConferenceCreateRequestPDU.make [] [Byte.x12; Byte.x12])
            forwarded)
         Sample.requested) /\
    RDPClientDataPDU.securityData forwarded = ClientSecurityData.make 2 2.
Proof.
  split; [reflexivity |]. split; [reflexivity |]. split; [reflexivity |].
  destruct (onConnectInitial_clears_FIPS
              (collaborators := Sample.collaborators)
              Sample.connectInitial Sample.requested _ _ _
              eq_refl eq_refl eq_refl)
    as [forwarded [Hrun [Hmethods [Hext _]]]].
  exists forwarded. split; [exact Hrun |].
  destruct forwarded as [coreData security networkData clusterData].
  destruct security as [methods ext]. simpl in Hmethods, Hext.
  simpl. rewrite Hmethods, Hext. reflexivity.
Defined.

Lemma onConnectResponse_rewrites_ServerData_witness :
  MCSConnectResponsePDU.result Sample.connectResponse = 0 /\
  originalNegotiationPDU Sample.negotiated
  = Some (RDPNegotiationRequestPDU.make
            (Some [Byte.x61; Byte.x62]) (Some 0) (Some 3) None None None) /\
  client Sample.negotiated
  = Some (MITMClient.make (Some Sample.conferenceCreateResponse)) /\
  exists sent : RDPServerDataPDU.t,
    serverData
      (fst (exec (onConnectResponse (collaborators := Sample.collaborators)
                    Sample.connectResponse)
                 (Sample.negotiated, Sample.serverDataFIPS)))
    = Some sent /\
    ServerCoreData.clientRequestedProtocols (RDPServerDataPDU.core sent)
    = Some 3 /\
    ServerSecurityData.encryptionMethod (RDPServerDataPDU.security sent)
    = EncryptionMethod.ENCRYPTION_128BIT /\
    ServerSecurityData.encryptionLevel (RDPServerDataPDU.security sent)
    = EncryptionLevel.ENCRYPTION_LEVEL_HIGH /\
    ServerNetworkData.channels (RDPServerDataPDU.network sent) = [] /\
    ServerSecurityData.serverCertificate (RDPServerDataPDU.security sent)
    = Some (ProprietaryCertificate.make
              1 1 1 Sample.key 8 [Byte.x5a] [Byte.x00]).
Proof.
  split; [reflexivity |]. split; [reflexivity |]. split; [reflexivity |].
  destruct (onConnectResponse_rewrites_ServerData
              (collaborators := Sample.collaborators)
              Sample.connectResponse Sample.negotiated Sample.serverDataFIPS
              _ _ _ eq_refl eq_refl eq_refl eq_refl)
    as [sent [_ [Hsent [_ [Hprotocols [_ [Hmethod [_ [Hlevel
         [Hchannels Hcert]]]]]]]]]].
  exists sent. split; [exact Hsent |].
  split; [exact Hprotocols |]. split; [exact Hmethod |].
  split; [exact Hlevel |]. split; [exact Hchannels | exact Hcert].
Defined.

(** C1, as stated, fails on a TLS session: the real server sends no
    certificate, the Connect-Response is rewritten and sent all the same,
    and the ServerData going to the client has no certificate whose public
    key could be that of the MITM. *)
Lemma onConnectResponse_sends_no_certificate_when_none_received :
  MCSConnectResponsePDU.result Sample.connectResponse = 0 /\
  outcome (onConnectResponse (collaborators := Sample.collaborators)
             Sample.connectResponse)
          (Sample.negotiated, Sample.serverDataTLS)
  = Ok tt /\
  exists sent : RDPServerDataPDU.t,
    serverData
      (fst (exec (onConnectResponse (collaborators := Sample.collaborators)
                    Sample.connectResponse)
                 (Sample.negotiated, Sample.serverDataTLS)))
    = Some sent /\
    ~ (exists cert : ProprietaryCertificate.t,
          ServerSecurityData.serverCertificate
            (RDPServerDataPDU.security sent) = Some cert /\
          ProprietaryCertificate.publicKey cert
          = rc4RSAKey Sample.negotiated).
Proof.
  split; [reflexivity |]. split; [reflexivity |].
  eexists. split; [reflexivity |].
  intros [cert [Hcert _]]. discriminate Hcert.
Qed.

Lemma onConnectResponse_failure_forwarded_witness :
  MCSConnectResponsePDU.result Sample.connectResponseFailure <> 0 /\
  onConnectResponse (collaborators := Sample.collaborators)
    Sample.connectResponseFailure (Sample.negotiated, Sample.serverDataFIPS)
  = (Ok tt,
     (record_effect
        (MCS_send (MCSPDU_ConnectResponse Sample.connectResponseFailure))
        Sample.negotiated,
      Sample.serverDataFIPS)).
Proof.
  assert (Hresult :
            MCSConnectResponsePDU.result Sample.connectResponseFailure <> 0).
  { simpl. lia. }
  split; [exact Hresult |].
  exact (proj1 (onConnectResponse_failure_forwarded
                  (collaborators := Sample.collaborators)
                  Sample.connectResponseFailure Sample.negotiated
                  Sample.serverDataFIPS Hresult)).
Defined.

(** C6, as stated, fails: after a Connect-Response with [result = 1] has
    been forwarded, the client-facing transport is still open and the
    outbound connector is still held; nothing has been closed. *)
Lemma onConnectResponse_failure_does_not_disconnect :
  let after :=
    fst (exec (onConnectResponse (collaborators := Sample.collaborators)
                 Sample.connectResponseFailure)
              (Sample.negotiated, Sample.serverDataFIPS)) in
  MCSConnectResponsePDU.result Sample.connectResponseFailure = 1 /\
  tcp after = TCPLayer.OPEN /\
  clientConnector after = Some (Connector.make "192.0.2.10" 3389) /\
  ~ In Transport_loseConnection (effects after) /\
  ~ disconnected after.
Proof.
  simpl. split; [reflexivity |]. split; [reflexivity |].
  split; [reflexivity |].
  split.
  - vm_compute. intuition discriminate.
  - intros [Htcp _]. apply Htcp. reflexivity.
Qed.

Lemma onSecurityExchangeReceived_loses_trailing_zero_bytes_witness :
  minimalBigEndian
    (RSA_decrypt (Collaborators := Sample.collaborators)
       (rc4RSAKey Sample.session)
       (rev (RDPSecurityExchangePDU.clientRandom
               securityExchangeEndingInZero)))
  = true /\
  Sample.bytes_to_long
    (RSA_decrypt (Collaborators := Sample.collaborators)
       (rc4RSAKey Sample.session)
       (rev (RDPSecurityExchangePDU.clientRandom
               securityExchangeEndingInZero)))
  = Sample.bytes_to_long (rev clientRandomEndingInZero) /\
  onSecurityExchangeReceived (collaborators := Sample.collaborators)
    securityExchangeEndingInZero Sample.session
  = (Ok tt,
     record_effect (SecuritySettings_setClientRandom [Byte.x41])
                   Sample.session) /\
  [Byte.x41] <> clientRandomEndingInZero.
Proof.
  assert (Hminimal :
            minimalBigEndian
              (RSA_decrypt (Collaborators := Sample.collaborators)
                 (rc4RSAKey Sample.session)
                 (rev (RDPSecurityExchangePDU.clientRandom
                         securityExchangeEndingInZero)))
            = true).
  { vm_compute. reflexivity. }
  assert (Hbody : [Byte.x41] <> @nil Byte.byte).
  { discriminate. }
  assert (Hvalue :
            rev (RSA_decrypt (Collaborators := Sample.collaborators)
                   (rc4RSAKey Sample.session)
                   (rev (RDPSecurityExchangePDU.clientRandom
                           securityExchangeEndingInZero)))
            = [Byte.x41]).
  { vm_compute. reflexivity. }
  split; [exact Hminimal |].
  split; [vm_compute; reflexivity |].
  destruct (onSecurityExchangeReceived_loses_trailing_zero_bytes
              (collaborators := Sample.collaborators)
              securityExchangeEndingInZero Sample.session [Byte.x41]
              Hminimal Hbody)
    as [passed [Hrun [Hpassed Hdiffers]]].
  rewrite Hvalue in Hpassed. subst passed.
  split; [exact Hrun | exact Hdiffers].
Defined.

Lemma onChannelJoinRequest_confirms_only_io_and_1004_witness :
  serverData Sample.rewritten
  = Some (RDPServerDataPDU.make
            (ServerCoreData.make 524292 (Some 3) None)
            (ServerSecurityData.make 2 3 (Some [Byte.x07])
               (Some (ProprietaryCertificate.make
                        1 1 1 Sample.key 8 [Byte.x5a] [Byte.x00])))
            (ServerNetworkData.make 1003 [])) /\
  onChannelJoinRequest
    (MCSChannelJoinRequestPDU.make 7 1003) Sample.rewritten
  = (Ok tt,
     record_effect
       (Client_onChannelJoinRequest (MCSChannelJoinRequestPDU.make 7 1003))
       Sample.rewritten) /\
  onChannelJoinRequest
    (MCSChannelJoinRequestPDU.make 7 1004) Sample.rewritten
  = (Ok tt,
     record_effect
       (Router_sendChannelJoinConfirm
          MCSResult.RT_SUCCESSFUL 7 1004 (Some false))
       Sample.rewritten) /\
  onChannelJoinRequest
    (MCSChannelJoinRequestPDU.make 7 1007) Sample.rewritten
  = (Ok tt,
     record_effect
       (Router_sendChannelJoinConfirm
          MCSResult.RT_USER_REJECTED 7 1007 (Some false))
       Sample.rewritten).
Proof.
  split; [reflexivity |].
  split.
  - refine (proj1 (onChannelJoinRequest_confirms_only_io_and_1004
                     (MCSChannelJoinRequestPDU.make 7 1003)
                     Sample.rewritten _ eq_refl) eq_refl _ eq_refl).
  - split.
    + refine (proj1 (proj2 (onChannelJoinRequest_confirms_only_io_and_1004
                              (MCSChannelJoinRequestPDU.make 7 1004)
                              Sample.rewritten _ eq_refl)) _ eq_refl).
      simpl. lia.
    + refine (proj1 (proj2 (proj2
                (onChannelJoinRequest_confirms_only_io_and_1004
                   (MCSChannelJoinRequestPDU.make 7 1007)
                   Sample.rewritten _ eq_refl))) _ _); simpl; lia.
Defined.

Lemma onUnknownTPKTHeader_disconnects_witness :
  tcp Sample.negotiated <> TCPLayer.CLOSED /\
  effects
    (exec (TCPLayer_connectionLost "connection done")
       (exec (onUnknownTPKTHeader 0x7f) Sample.negotiated))
  = effects Sample.negotiated
    ++ [Transport_loseConnection;
        Connector_disconnect (Connector.make "192.0.2.10" 3389);
        Recorder_record (Recorded_FastPath (RDPFastPathPDU.make 0 []))
                        CONNECTION_CLOSE;
        Client_disconnect].
Proof.
  assert (Hopen : tcp Sample.negotiated <> TCPLayer.CLOSED).
  { vm_compute. discriminate. }
  split; [exact Hopen |].
  destruct (onUnknownTPKTHeader_disconnects
              0x7f Sample.negotiated "connection done" Hopen)
    as [_ [_ [_ [_ [Hclosing [_ [_ Hclosed]]]]]]].
  rewrite Hclosed, Hclosing. reflexivity.
Defined.

Lemma channel_methods_need_successful_connect_response_witness :
  let calls :=
    [Call_buildProtocol;
     Call_onConnectionRequest Sample.connectionRequest;
     Call_onConnectionConfirm;
     Call_onConnectResponse Sample.connectResponseFailure
       Sample.serverDataFIPS] in
  let self :=
    run (collaborators := Sample.collaborators) calls Sample.session in
  existsb successfulConnectResponse calls = false /\
  onChannelJoinRequest
    (MCSChannelJoinRequestPDU.make 7 1004) self
  = (Raise AttributeError, self) /\
  buildChannel 7 1003 self = (Raise AttributeError, self).
Proof.
  intros calls self.
  split; [reflexivity |].
  destruct (channel_methods_need_successful_connect_response
              (collaborators := Sample.collaborators)
              "192.0.2.10" 3389 "cert.pem" "key.pem" Sample.key calls
              (MCSChannelJoinRequestPDU.make 7 1004) 7 1003 eq_refl)
    as [_ [Hjoin [Hbuild _]]].
  split; [exact Hjoin | exact Hbuild].
Defined.

(** * The further properties at concrete sessions *)

Lemma onConnectionRequest_offers_SSL_or_nothing_witness :
  RDPNegotiationRequestParser_parse (Collaborators := Sample.collaborators)
    (X224ConnectionRequestPDU.payload Sample.connectionRequest)
  = Ok (RDPNegotiationRequestPDU.make
          (Some [Byte.x61; Byte.x62]) (Some 0) (Some 3) None None None) /\
  exists target : RDPNegotiationRequestPDU.t,
    targetNegotiationPDU
      (exec (onConnectionRequest (collaborators := Sample.collaborators)
               Sample.connectionRequest)
            Sample.session)
    = Some target /\
    RDPNegotiationRequestPDU.requestedProtocols target
    = Some NegotiationProtocols.SSL.
Proof.
  split; [reflexivity |].
  destruct (onConnectionRequest_offers_SSL_or_nothing
              (collaborators := Sample.collaborators)
              Sample.connectionRequest Sample.session _ 3 eq_refl eq_refl)
    as [target [offered [Htarget [Hoffered [Hvalue _]]]]].
  exists target. split; [exact Htarget |].
  rewrite Hoffered, Hvalue. reflexivity.
Defined.

Lemma onConnectionRequest_replaces_connector_without_cancelling_witness :
  clientConnector Sample.requested
  = Some (Connector.make "192.0.2.10" 3389) /\
  effects
    (exec disconnect
       (exec (onConnectionRequest (collaborators := Sample.collaborators)
                Sample.connectionRequest)
             Sample.requested))
  = [Reactor_connectTCP "192.0.2.10" 3389;
     Reactor_connectTCP "192.0.2.10" 3389;
     Transport_loseConnection;
     Connector_disconnect (Connector.make "192.0.2.10" 3389)] /\
  occurrences cancelsConnector
    (effects
       (exec disconnect
          (exec (onConnectionRequest (collaborators := Sample.collaborators)
                   Sample.connectionRequest)
                Sample.requested)))
  = 1%nat.
Proof.
  split; [reflexivity |]. split; [reflexivity |].
  destruct (onConnectionRequest_replaces_connector_without_cancelling
              (collaborators := Sample.collaborators)
              Sample.connectionRequest Sample.requested _ _
              eq_refl eq_refl)
    as [_ [_ [_ [Hcancelled _]]]].
  rewrite Hcancelled. reflexivity.
Defined.

Lemma session_never_keeps_FIPS_witness :
  serverData
    (run (collaborators := Sample.collaborators) fullHandshake Sample.session)
  = Some rewrittenServerData /\
  ServerSecurityData.encryptionMethod
    (RDPServerDataPDU.security rewrittenServerData)
  <> EncryptionMethod.ENCRYPTION_FIPS.
Proof.
  assert (Hdata :
            serverData
              (run (collaborators := Sample.collaborators)
                 fullHandshake Sample.session)
            = Some rewrittenServerData).
  { vm_compute. reflexivity. }
  split; [exact Hdata |].
  exact (proj1 (proj1 (session_never_keeps_FIPS
                         (collaborators := Sample.collaborators)
                         "192.0.2.10" 3389 "cert.pem" "key.pem" Sample.key
                         fullHandshake)
                      rewrittenServerData Hdata)).
Defined.

Lemma buildChannel_refuses_other_channels_witness :
  serverData Sample.rewritten = Some rewrittenServerData /\
  buildChannel 7 1005 Sample.rewritten = (Ok None, Sample.rewritten).
Proof.
  assert (Hdata : serverData Sample.rewritten = Some rewrittenServerData).
  { vm_compute. reflexivity. }
  assert (Hother :
            1005 <> ServerNetworkData.mcsChannelID
                      (RDPServerDataPDU.network rewrittenServerData)).
  { vm_compute. discriminate. }
  split; [exact Hdata |].
  exact (buildChannel_refuses_other_channels
           Sample.rewritten rewrittenServerData 7 1005 Hdata Hother).
Defined.

Lemma onConnectResponse_without_original_request_witness :
  originalNegotiationPDU Sample.session = None /\
  onConnectResponse (collaborators := Sample.collaborators)
    Sample.connectResponse (Sample.session, Sample.serverDataFIPS)
  = (Raise AttributeError, (Sample.session, Sample.serverDataFIPS)).
Proof.
  assert (Hnone : originalNegotiationPDU Sample.session = None).
  { vm_compute. reflexivity. }
  split; [exact Hnone |].
  exact (onConnectResponse_without_original_request
           (collaborators := Sample.collaborators)
           Sample.connectResponse Sample.session Sample.serverDataFIPS
           eq_refl Hnone).
Defined.

Lemma onConnectResponse_without_conference_response_is_partial_witness :
  originalNegotiationPDU Sample.requested = Some sampleOriginalRequest /\
  client Sample.requested = Some (MITMClient.make None) /\
  outcome (onConnectResponse (collaborators := Sample.collaborators)
             Sample.connectResponse)
          (Sample.requested, Sample.serverDataFIPS)
  = Raise AttributeError.
Proof.
  assert (Horiginal :
            originalNegotiationPDU Sample.requested
            = Some sampleOriginalRequest).
  { vm_compute. reflexivity. }
  assert (Hclient :
            match client Sample.requested with
            | Some mitmClient =>
                MITMClient.conferenceCreateResponse mitmClient = None
            | None => True
            end).
  { vm_compute. reflexivity. }
  split; [exact Horiginal |]. split; [vm_compute; reflexivity |].
  exact (proj1 (onConnectResponse_without_conference_response_is_partial
                  (collaborators := Sample.collaborators)
                  Sample.connectResponse Sample.requested
                  Sample.serverDataFIPS sampleOriginalRequest
                  eq_refl Horiginal Hclient)).
Defined.

Lemma onConnectResponse_mutates_the_callers_ServerData_witness :
  originalNegotiationPDU Sample.negotiated = Some sampleOriginalRequest /\
  exists kept : RDPServerDataPDU.t,
    serverData
      (fst (exec (onConnectResponse (collaborators := Sample.collaborators)
                    Sample.connectResponse)
                 (Sample.negotiated, Sample.serverDataFIPS)))
    = Some kept /\
    RDPServerDataPDU.security
      (snd (exec (onConnectResponse (collaborators := Sample.collaborators)
                    Sample.connectResponse)
                 (Sample.negotiated, Sample.serverDataFIPS)))
    = RDPServerDataPDU.security Sample.serverDataFIPS /\
    ServerNetworkData.channels
      (RDPServerDataPDU.network
         (snd (exec (onConnectResponse (collaborators := Sample.collaborators)
                       Sample.connectResponse)
                    (Sample.negotiated, Sample.serverDataFIPS))))
    = [].
Proof.
  assert (Horiginal :
            originalNegotiationPDU Sample.negotiated
            = Some sampleOriginalRequest).
  { vm_compute. reflexivity. }
  split; [exact Horiginal |].
  destruct (onConnectResponse_mutates_the_callers_ServerData
              (collaborators := Sample.collaborators)
              Sample.connectResponse Sample.negotiated
              Sample.serverDataFIPS sampleOriginalRequest
              eq_refl Horiginal)
    as [kept [Hkept [_ [_ [Hsecurity [_ [Hchannels _]]]]]]].
  exists kept. split; [exact Hkept |].
  split; [exact Hsecurity | exact Hchannels].
Defined.

Lemma io_channel_is_the_real_servers_witness :
  originalNegotiationPDU Sample.negotiated = Some sampleOriginalRequest /\
  client Sample.negotiated = Some sampleClientHalf /\
  outcome (buildChannel 7 1003)
    (fst (exec (onConnectResponse (collaborators := Sample.collaborators)
                  Sample.connectResponse)
               (Sample.negotiated, Sample.serverDataFIPS)))
  = Ok (Some (MCSServerChannel.make 7 1003)).
Proof.
  assert (Horiginal :
            originalNegotiationPDU Sample.negotiated
            = Some sampleOriginalRequest).
  { vm_compute. reflexivity. }
  assert (Hclient : client Sample.negotiated = Some sampleClientHalf).
  { vm_compute. reflexivity. }
  split; [exact Horiginal |]. split; [exact Hclient |].
  exact (proj2 (io_channel_is_the_real_servers
                  (collaborators := Sample.collaborators)
                  Sample.connectResponse Sample.negotiated
                  Sample.serverDataFIPS sampleOriginalRequest
                  sampleClientHalf Sample.conferenceCreateResponse 7
                  eq_refl Horiginal Hclient eq_refl)).
Defined.

Lemma certified_key_decrypts_the_client_random_witness :
  originalNegotiationPDU Sample.negotiated = Some sampleOriginalRequest /\
  client Sample.negotiated = Some sampleClientHalf /\
  RSA_decrypt (Collaborators := Sample.collaborators)
    Sample.key (Sample.textbook_encrypt Sample.key (rev Sample.clientRandom))
  = rev Sample.clientRandom /\
  outcome (onSecurityExchangeReceived
             (collaborators := Sample.collaborators)
             Sample.securityExchange)
          (run (collaborators := Sample.collaborators)
             [Call_onAttachUserRequest; Call_buildChannel 7 1003]
             (fst (exec (onConnectResponse
                           (collaborators := Sample.collaborators)
                           Sample.connectResponse)
                        (Sample.negotiated, Sample.serverDataFIPS))))
  = Ok tt.
Proof.
  assert (Horiginal :
            originalNegotiationPDU Sample.negotiated
            = Some sampleOriginalRequest).
  { vm_compute. reflexivity. }
  assert (Hclient : client Sample.negotiated = Some sampleClientHalf).
  { vm_compute. reflexivity. }
  assert (Hinverse :
            RSA_decrypt (Collaborators := Sample.collaborators)
              Sample.key
              (Sample.textbook_encrypt Sample.key (rev Sample.clientRandom))
            = rev Sample.clientRandom).
  { vm_compute. reflexivity. }
  split; [exact Horiginal |]. split; [exact Hclient |].
  split; [exact Hinverse |].
  destruct (certified_key_decrypts_the_client_random
              (collaborators := Sample.collaborators)
              Sample.connectResponse Sample.negotiated
              Sample.serverDataFIPS sampleOriginalRequest
              sampleClientHalf Sample.conferenceCreateResponse
              Sample.serverCertificate
              [Call_onAttachUserRequest; Call_buildChannel 7 1003]
              eq_refl Horiginal Hclient eq_refl eq_refl)
    as [certified [Hkept Hdecrypts]].
  assert (Hcertified :
            keptCertificate
              (fst (exec (onConnectResponse
                            (collaborators := Sample.collaborators)
                            Sample.connectResponse)
                         (Sample.negotiated, Sample.serverDataFIPS)))
            = Some sampleCertified).
  { vm_compute. reflexivity. }
  rewrite Hcertified in Hkept. injection Hkept as Hsame. subst certified.
  unfold outcome.
  rewrite (Hdecrypts Sample.textbook_encrypt Sample.securityExchange
             Sample.clientRandom eq_refl Hinverse).
  reflexivity.
Defined.

Lemma onConnectInitial_forwards_methods_less_FIPS_witness :
  client Sample.requested = Some (MITMClient.make None) /\
  exists forwarded : RDPClientDataPDU.t,
    effects (exec (onConnectInitial (collaborators := Sample.collaborators)
                     Sample.connectInitial)
                  Sample.requested)
    = effects Sample.requested
      ++ [Client_onConnectInitial
            (GCCConferenceCreateRequestPDU.make [] [Byte.x12; Byte.x12])
            forwarded] /\
    ClientSecurityData.encryptionMethods
      (RDPClientDataPDU.securityData forwarded)
    = 18 - EncryptionMethod.ENCRYPTION_FIPS.
Proof.
  assert (Hclient : client Sample.requested = Some (MITMClient.make None)).
  { vm_compute. reflexivity. }
  split; [exact Hclient |].
  destruct (onConnectInitial_forwards_methods_less_FIPS
              (collaborators := Sample.collaborators)
              Sample.connectInitial Sample.requested
              (GCCConferenceCreateRequestPDU.make [] [Byte.x12; Byte.x12])
              (RDPClientDataPDU.make []
                 (ClientSecurityData.make 18 18) [] [])
              (MITMClient.make None)
              eq_refl eq_refl Hclient)
    as [forwarded [Heffects [Hmethods _]]].
  exists forwarded. split; [exact Heffects | exact Hmethods].
Defined.

Lemma negotiation_methods_fail_without_trace_witness :
  onConnectionConfirm (collaborators := Sample.collaborators) Sample.session
  = (Raise AttributeError, Sample.session).
Proof.
  assert (Hrun :
            onConnectionConfirm (collaborators := Sample.collaborators)
              Sample.session
            = (Raise AttributeError,
               exec (onConnectionConfirm
                       (collaborators := Sample.collaborators))
                    Sample.session)).
  { vm_compute. reflexivity. }
  rewrite Hrun at 1.
  rewrite (proj1 (proj2 (negotiation_methods_fail_without_trace
                           (collaborators := Sample.collaborators)
                           Sample.session _ AttributeError))
                 Hrun).
  reflexivity.
Defined.

Lemma buildChannel_builds_io_channel_witness :
  serverData Sample.rewritten = Some rewrittenServerData /\
  client Sample.rewritten = Some sampleClientHalf /\
  useTLS Sample.rewritten = true /\
  outcome (buildChannel 7 1003) Sample.rewritten
  = Ok (Some (MCSServerChannel.make 7 1003)) /\
  securityLayer (exec (buildChannel 7 1003) Sample.rewritten)
  = Some (SecurityLayer.make SecurityLayer.TLSSecurityLayer (Some true)) /\
  fastPathParser (exec (buildChannel 7 1003) Sample.rewritten)
  = Some (FastPathParser.make true 2 RC4CrypterProxy.make SERVER).
Proof.
  assert (Hdata : serverData Sample.rewritten = Some rewrittenServerData).
  { vm_compute. reflexivity. }
  assert (Hclient : client Sample.rewritten = Some sampleClientHalf).
  { vm_compute. reflexivity. }
  assert (HuseTLS : useTLS Sample.rewritten = true).
  { vm_compute. reflexivity. }
  split; [exact Hdata |]. split; [exact Hclient |].
  split; [exact HuseTLS |].
  destruct (buildChannel_builds_io_channel
              Sample.rewritten rewrittenServerData sampleClientHalf 7
              Hdata Hclient)
    as [Hchannel [Hlayer [Hparser _]]].
  rewrite HuseTLS in Hlayer, Hparser.
  split; [exact Hchannel |]. split; [exact Hlayer | exact Hparser].
Defined.

Lemma buildChannel_without_client_half_is_partial_witness :
  serverData sessionWithoutClientHalf = Some rewrittenServerData /\
  client sessionWithoutClientHalf = None /\
  useTLS sessionWithoutClientHalf = false /\
  outcome (buildChannel 7 1003) sessionWithoutClientHalf
  = Raise AttributeError /\
  securityLayer (exec (buildChannel 7 1003) sessionWithoutClientHalf)
  = Some (SecurityLayer.make
            (SecurityLayer.NonTLSSecurityLayer 2 RC4CrypterProxy.make) None)
  /\
  ~ In (Wire FastPathObserver_setPeer)
       (skipn (List.length (effects sessionWithoutClientHalf))
              (effects (exec (buildChannel 7 1003)
                             sessionWithoutClientHalf))).
Proof.
  assert (Hdata :
            serverData sessionWithoutClientHalf = Some rewrittenServerData).
  { vm_compute. reflexivity. }
  assert (Hclient : client sessionWithoutClientHalf = None).
  { vm_compute. reflexivity. }
  assert (HuseTLS : useTLS sessionWithoutClientHalf = false).
  { vm_compute. reflexivity. }
  split; [exact Hdata |]. split; [exact Hclient |].
  split; [exact HuseTLS |].
  destruct (buildChannel_without_client_half_is_partial
              sessionWithoutClientHalf rewrittenServerData 7 Hdata Hclient)
    as [Hraise [Hlayer [_ [_ [_ [_ [_ [Hfast _]]]]]]]].
  rewrite HuseTLS in Hlayer.
  split; [exact Hraise |]. split; [exact Hlayer | exact Hfast].
Defined.

Lemma onLicensingPDU_after_buildChannel_witness :
  serverData Sample.rewritten = Some rewrittenServerData /\
  client Sample.rewritten = Some sampleClientHalf /\
  securityLayer
    (exec (onLicensingPDU [Byte.xff])
       (exec (buildChannel 7 1003) Sample.rewritten))
  = Some (SecurityLayer.make SecurityLayer.TLSSecurityLayer (Some false)).
Proof.
  assert (Hdata : serverData Sample.rewritten = Some rewrittenServerData).
  { vm_compute. reflexivity. }
  assert (Hclient : client Sample.rewritten = Some sampleClientHalf).
  { vm_compute. reflexivity. }
  assert (HuseTLS : useTLS Sample.rewritten = true).
  { vm_compute. reflexivity. }
  split; [exact Hdata |]. split; [exact Hclient |].
  destruct (onLicensingPDU_after_buildChannel
              Sample.rewritten rewrittenServerData sampleClientHalf 7
              [Byte.xff] Hdata Hclient)
    as [_ [Hlayer _]].
  rewrite HuseTLS in Hlayer. exact Hlayer.
Defined.

Lemma onLicensingPDU_before_buildChannel_witness :
  existsb (fun c => match c with
                    | Call_buildChannel _ _ => true
                    | _ => false
                    end)
    [Call_buildProtocol;
     Call_onConnectionRequest Sample.connectionRequest;
     Call_onConnectionConfirm]
  = false /\
  outcome (onLicensingPDU [Byte.xff])
    (run (collaborators := Sample.collaborators)
       [Call_buildProtocol;
        Call_onConnectionRequest Sample.connectionRequest;
        Call_onConnectionConfirm]
       Sample.session)
  = Raise AttributeError.
Proof.
  split; [reflexivity |].
  exact (f_equal fst
           (onLicensingPDU_before_buildChannel
              (collaborators := Sample.collaborators)
              "192.0.2.10" 3389 "cert.pem" "key.pem" Sample.key
              [Call_buildProtocol;
               Call_onConnectionRequest Sample.connectionRequest;
               Call_onConnectionConfirm]
              [Byte.xff] eq_refl)).
Defined.
